(** * Aegis visualizations: a shallow embedding of [aegis/visualizations.py]

    The development follows the class [AegisVisualizer]: the colour table,
    the loader, the seven chart routines driven by [plot_all], and the
    dashboard generator together with the client-side components of the
    document it writes ([DNARadar], [IdealXIPitch], [SquadFitChart],
    [Dashboard]).

    Conventions.
    - A JSON or Python number is a rational ([Q]); coordinates that involve
      [pi], [cos] and [sin] are real numbers ([R]).  Rounding error of the
      binary floating point of the two run times is not modelled.
    - A dictionary read with [.get(key, default)] or [d[key]] is a record
      whose fields are options: [None] is an absent key.
    - A routine is a computation over a [World] (the files of the output
      directory and the lines printed so far) that either returns or raises
      a Python exception. *)

From Stdlib Require Import List String Ascii Bool Arith ZArith QArith Qround Qabs.
From Stdlib Require Import Reals Qreals Psatz Permutation Sorted.
Import ListNotations.

Set Implicit Arguments.
Open Scope string_scope.
Open Scope list_scope.

(** ** The Python run time: exceptions, the world, computations *)

Inductive exn : Type :=
| FileNotFoundError
| ValueError
| KeyError
| IndexError
| AttributeError
| TypeError.

Inductive outcome (W A : Type) : Type :=
| Return (a : A) (w : W)
| Raise (e : exn) (w : W).

Arguments Return {W A} a w.
Arguments Raise {W A} e w.

Section Computations.
Variable W : Type.

Definition M (A : Type) : Type := W -> outcome W A.

Definition ret {A} (a : A) : M A := fun w => Return a w.

Definition raise {A} (e : exn) : M A := fun w => Raise e w.

Definition bind {A B} (m : M A) (k : A -> M B) : M B :=
  fun w =>
    match m w with
    | Return a w' => k a w'
    | Raise e w' => Raise e w'
    end.

(** [try: ... except Exception as e: handler(e)] *)
Definition try_except {A} (m : M A) (handler : exn -> M A) : M A :=
  fun w =>
    match m w with
    | Return a w' => Return a w'
    | Raise e w' => handler e w'
    end.

(** A [for] loop whose body may raise: the elements are visited in order
    and the first exception ends the loop. *)
Fixpoint mapM {A B} (f : A -> M B) (l : list A) : M (list B) :=
  match l with
  | [] => ret []
  | a :: l' =>
      bind (f a) (fun b => bind (mapM f l') (fun bs => ret (b :: bs)))
  end.

(** Statements run one after the other. *)
Fixpoint run_all (steps : list (M unit)) : M unit :=
  match steps with
  | [] => ret tt
  | s :: rest => bind s (fun _ => run_all rest)
  end.
End Computations.

Arguments ret {W A} a w.
Arguments raise {W A} e w.
Arguments bind {W A B} m k w.
Arguments try_except {W A} m handler w.
Arguments mapM {W A B} f l w.
Arguments run_all {W} steps w.

Declare Scope py_scope.
Delimit Scope py_scope with py.
Notation "x <- m ;; k" := (bind m (fun x => k))
  (at level 61, m at next level, right associativity) : py_scope.
Notation "m ;;; k" := (bind m (fun _ => k))
  (at level 61, right associativity) : py_scope.

(** [d.get(key, default)] and [d[key]] on an optional field. *)
Definition get {A} (field : option A) (default : A) : A :=
  match field with
  | Some v => v
  | None => default
  end.

Definition item {W A} (field : option A) : M W A :=
  match field with
  | Some v => ret v
  | None => raise KeyError
  end.

(** [l[-1]] *)
Definition last_item {W A} (l : list A) : M W A :=
  match rev l with
  | x :: _ => ret x
  | [] => raise IndexError
  end.

(** [l[:-1]] *)
Definition but_last {A} (l : list A) : list A := removelast l.

(** ** Strings *)

Definition is_py_space (c : ascii) : bool :=
  let n := nat_of_ascii c in
  (((9 <=? n) && (n <=? 13)) || ((28 <=? n) && (n <=? 32)))%nat.

(** [s.split()] of Python: the maximal runs of characters that are not
    (ASCII) white space.  [tokens_from s cur] carries the run being read,
    reversed. *)
Definition flush (cur : list ascii) (acc : list string) : list string :=
  match cur with
  | [] => acc
  | _ => string_of_list_ascii (rev cur) :: acc
  end.

Fixpoint tokens_from (s : string) (cur : list ascii) : list string :=
  match s with
  | EmptyString => flush cur []
  | String c s' =>
      if is_py_space c then flush cur (tokens_from s' [])
      else tokens_from s' (c :: cur)
  end.

Definition py_split (s : string) : list string := tokens_from s [].

(** [s.split(' ')] of JavaScript: the pieces between single spaces, the empty
    ones included; the result is never empty. *)
Fixpoint js_split_from (s : string) (cur : list ascii) : list string :=
  match s with
  | EmptyString => [string_of_list_ascii (rev cur)]
  | String c s' =>
      if Ascii.eqb c " "%char
      then string_of_list_ascii (rev cur) :: js_split_from s' []
      else js_split_from s' (c :: cur)
  end.

Definition js_split_space (s : string) : list string := js_split_from s [].

Definition path_join (dir name : string) : string :=
  (dir ++ "/" ++ name)%string.

(** ** Numbers *)

(** [f"{x:.0f}"] and ["%1.0f"]: the nearest integer, a tie going to the even
    one. *)
Definition round_half_even (x : Q) : Z :=
  let f := Qfloor x in
  let d := (x - inject_Z f)%Q in
  match (d ?= 1 # 2)%Q with
  | Lt => f
  | Gt => (f + 1)%Z
  | Eq => if Z.even f then f else (f + 1)%Z
  end.

(** [x.toFixed(0)]: the nearest integer, a tie going away from zero. *)
Definition toFixed0 (x : Q) : Z :=
  let a := Qabs x in
  let n := Qfloor (a + (1 # 2))%Q in
  if Qle_bool 0 x then n else (- n)%Z.

(** [x || 0] on a number that may be missing. *)
Definition or_zero (x : option Q) : Q :=
  match x with
  | Some v => if Qeq_bool v 0 then 0%Q else v
  | None => 0%Q
  end.

(** Python's [sum] and JavaScript's [reduce((a, b) => a + b, 0)]: both add
    from the left, starting from 0. *)
Definition sum_left (l : list Q) : Q := fold_left Qplus l 0%Q.

(** ** The data model *)

(** One entry of [ideal_xi]. *)
Record PositionAssignment : Type := {
  xi_position : option string;
  xi_name : option string;
  xi_fit_score : option Q
}.

(** One entry of [recruitment]. *)
Record RecruitmentNeed : Type := {
  rn_position : option string;
  rn_gap : option Q;
  rn_urgency : option string;
  rn_timeline : option string;
  rn_cost_low : option Q;
  rn_cost_high : option Q
}.

(** The value of [squad_summary]. *)
Record SquadSummary : Type := {
  key_enablers : option Q;
  good_fit : option Q;
  system_dependent : option Q;
  marginalised : option Q;
  total : option Q;
  average_fit : option Q
}.

(** The document [aegis_analysis.json] as [json.load] returns it: the seven
    keys the visualizer reads, and the names of whatever other keys the
    document has.  [dna_dimensions] keeps the order of the document. *)
Record AnalysisResult : Type := {
  manager : option string;
  primary_formation : option string;
  matches_analysed : option Q;
  dna_dimensions : option (list (string * Q));
  squad_summary : option SquadSummary;
  ideal_xi : option (list PositionAssignment);
  recruitment : option (list RecruitmentNeed);
  other_keys : list string
}.

Definition is_some {A} (o : option A) : bool :=
  match o with
  | Some _ => true
  | None => false
  end.



Definition empty_summary : SquadSummary :=
  {| key_enablers := None; good_fit := None; system_dependent := None;
     marginalised := None; total := None; average_fit := None |}.

(** A row of [squad_fit_scores.csv] as [csv.DictReader] yields it: the cell
    of each of the five columns, a text, or [None] when the header has no
    such column. *)
Record Row : Type := {
  Name : option string;
  Position : option string;
  Age : option string;
  Fit_Score : option string;
  Classification : option string
}.

(** ** Artifacts *)

Definition color : Type := string.

(** [01_manager_dna_radar.png]: what is handed to the polar axes. *)
Record RadarFigure : Type := {
  rf_angles : list R;          (* [ax.fill] and [ax.plot]: the closed loop *)
  rf_values : list Q;
  rf_scatter_angles : list R;  (* [ax.scatter]: one marker per dimension *)
  rf_scatter_values : list Q;
  rf_xticks : list R;
  rf_xticklabels : list string;
  rf_ylim : Q * Q;
  rf_title : string
}.

Inductive Annotation : Type :=
| Percent (pct : Q)            (* [f"{pct}%"] *)
| Rounded (n : Z)              (* [f"{score:.0f}"] *)
| CostRange (low high : Q).    (* [f"£{low}M-£{high}M"] *)

Record LabelledBar : Type := {
  lb_label : string;
  lb_width : Q;
  lb_color : color;
  lb_text : Annotation
}.

Record BarChart : Type := {
  bc_bars : list LabelledBar;  (* in the order given to [barh] *)
  bc_inverted : bool;          (* [invert_yaxis]: the first bar on top *)
  bc_xlim : Q * Q;
  bc_legend : list (string * color);
  bc_title : string
}.

Record Wedge : Type := {
  wedge_label : string;
  wedge_frac : Q;              (* the share of the disc *)
  wedge_color : color;
  wedge_pct : Z                (* the printed percentage *)
}.

Record Marker : Type := {
  mk_x : Q;
  mk_y : Q;
  mk_color : color;
  mk_score : Z;
  mk_name : string
}.

Record SummaryFigure : Type := {
  sf_title : string;
  sf_dna : list (string * Q);
  sf_pie : list Wedge;
  sf_metrics : Q * Q * Z * Q;  (* matches, squad size, tenths of the
                                  average fit, key enablers *)
  sf_top5 : list (string * Q);
  sf_needs : list (string * Q);
  sf_investment : Q * Q * nat  (* total low, total high, signings *)
}.

Inductive Figure : Type :=
| Radar (f : RadarFigure)
| Bars (f : BarChart)
| Pie (title : string) (wedges : list Wedge)
| Pitch (title : string) (markers : list Marker)
| Summary (f : SummaryFigure).

(** The constants the generated page embeds for its script. *)
Record SquadFitEntry : Type := {
  sq_name : string;
  sq_position : string;
  sq_age : Z;
  sq_score : Q;
  sq_classification : string
}.

Record DashboardDocument : Type := {
  managerName : string;
  primaryFormation : string;
  matchesAnalysed : Q;
  dnaDimensions : list (string * Q);
  squadSummary : SquadSummary;
  squadFit : list SquadFitEntry;
  idealXI : list PositionAssignment;
  recruitment_js : list RecruitmentNeed
}.

(** ** The world *)

(** A file of the output directory: one of the two inputs, parsed, or an
    artifact.  [json.load] raises [ValueError] (its [JSONDecodeError]) on a
    file that is not a JSON document. *)
Inductive File : Type :=
| Json (doc : AnalysisResult)
| Csv (rows : list Row)
| Png (fig : Figure)
| Html (doc : DashboardDocument).

Record World : Type := {
  files : list (string * File);
  stdout : list string
}.

Fixpoint lookup (path : string) (fs : list (string * File)) : option File :=
  match fs with
  | [] => None
  | (p, f) :: rest => if String.eqb p path then Some f else lookup path rest
  end.

Definition exists_file (path : string) (w : World) : bool :=
  is_some (lookup path (files w)).

Definition Py := M World.

Definition print (line : string) : Py unit :=
  fun w => Return tt {| files := files w; stdout := stdout w ++ [line] |}.

Definition write_file (path : string) (f : File) : Py unit :=
  fun w => Return tt {| files := (path, f) :: files w; stdout := stdout w |}.

Definition path_exists (path : string) : Py bool :=
  fun w => Return (exists_file path w) w.

(** [json.load(open(path))] *)
Definition json_load (path : string) : Py AnalysisResult :=
  fun w =>
    match lookup path (files w) with
    | Some (Json doc) => Return doc w
    | Some _ => Raise ValueError w
    | None => Raise FileNotFoundError w
    end.

(** [list(csv.DictReader(open(path)))] *)
Definition csv_rows (path : string) : Py (list Row) :=
  fun w =>
    match lookup path (files w) with
    | Some (Csv rows) => Return rows w
    | Some _ => Raise ValueError w
    | None => Raise FileNotFoundError w
    end.

(** [max(x, *others)] and [Math.max(x, ...others)] *)
Definition Qmax (a b : Q) : Q := if Qle_bool a b then b else a.

Definition max_of (first : Q) (others : list Q) : Q :=
  fold_left Qmax others first.

(** The elements of a list of options that are there, in order: what a loop
    has drawn, and what the browser shows of a list of children, where
    [None] is a skipped element. *)
Fixpoint somes {A} (l : list (option A)) : list A :=
  match l with
  | [] => []
  | Some a :: l' => a :: somes l'
  | None :: l' => somes l'
  end.

(** ** Dictionaries with text keys *)

Fixpoint dict_lookup {A} (k : string) (d : list (string * A)) : option A :=
  match d with
  | [] => None
  | (k', v) :: rest => if String.eqb k' k then Some v else dict_lookup k rest
  end.

(** ** Sorting *)

(** [list.sort(key=..., reverse=True)] and [Array.prototype.sort] with the
    comparator [(a, b) => b.score - a.score] are stable: elements whose keys
    are equal keep the order they had.  A stable sort has one possible
    result; it is computed here by insertion from the right. *)
Section StableSort.
Variable A : Type.
Variable key : A -> Q.

Fixpoint insert_desc (x : A) (l : list A) : list A :=
  match l with
  | [] => [x]
  | y :: l' =>
      if Qle_bool (key y) (key x) then x :: y :: l'
      else y :: insert_desc x l'
  end.

Definition sort_desc (l : list A) : list A :=
  fold_right insert_desc [] l.
End StableSort.

(** ** The visualizer *)

Record AegisVisualizer : Type := {
  output_dir : string;
  results : option AnalysisResult;
  squad_fit_data : option (list Row);
  plt : bool                   (* [False] when matplotlib is not installed *)
}.

Definition COLORS : list (string * color) :=
  [ ("Key Enabler", "#22c55e");
    ("Good Fit", "#eab308");
    ("System Dependent", "#f97316");
    ("Potentially Marginalised", "#ef4444");
    ("primary", "#3b82f6");
    ("secondary", "#64748b") ].

(** [self.COLORS[k]] *)
Definition COLORS_item (k : string) : Py color := item (dict_lookup k COLORS).

Definition init (dir : string) (matplotlib_installed : bool)
  : Py AegisVisualizer :=
  ((if matplotlib_installed then ret tt
    else print "⚠ matplotlib not installed. Run: pip install matplotlib") ;;;
   ret {| output_dir := dir; results := None; squad_fit_data := None;
          plt := matplotlib_installed |})%py.

(** [self.results.get(...)]: an attribute error when [self.results] is
    [None]. *)
Definition self_results (self : AegisVisualizer) : Py AnalysisResult :=
  match results self with
  | Some r => ret r
  | None => raise AttributeError
  end.

(** [self.plt.subplots(...)] and [self.plt.figure(...)]: an attribute error
    when [self.plt] is [None]. *)
Definition self_plt (self : AegisVisualizer) : Py unit :=
  if plt self then ret tt else raise AttributeError.

Definition savefig (self : AegisVisualizer) (name : string) (fig : Figure)
  : Py unit :=
  write_file (path_join (output_dir self) name) (Png fig).

Definition load_results (self : AegisVisualizer) : Py AegisVisualizer :=
  (let results_file := path_join (output_dir self) "aegis_analysis.json" in
   present <- path_exists results_file ;;
   loaded <-
     (if present : bool then
        doc <- json_load results_file ;;
        print ("✓ Loaded results for: " ++ get (manager doc) "Unknown")%string ;;;
        ret doc
      else raise FileNotFoundError) ;;
   let squad_file := path_join (output_dir self) "squad_fit_scores.csv" in
   squad_present <- path_exists squad_file ;;
   squad <-
     (if squad_present : bool then
        rows <- csv_rows squad_file ;; ret (Some rows)
      else ret (squad_fit_data self)) ;;
   ret {| output_dir := output_dir self; results := Some loaded;
          squad_fit_data := squad; plt := plt self |})%py.

(** *** 01: the DNA radar *)

(** [np.linspace(start, stop, num, endpoint=False)] *)
Definition linspace_open (start stop : R) (num : nat) : list R :=
  map (fun i => (INR i * ((stop - start) / INR num) + start)%R) (seq 0 num).

(** The lists [plot_dna_radar] hands to the polar axes. *)
Definition radar_figure (r : AnalysisResult) : RadarFigure :=
  let dimensions := get (dna_dimensions r) [] in
  let labels := map fst dimensions in
  let values := map snd dimensions in
  let values := values ++ firstn 1 values in
  let angles := linspace_open 0 (2 * PI) (List.length labels) in
  let angles := angles ++ firstn 1 angles in
  {| rf_angles := angles; rf_values := values;
     rf_scatter_angles := but_last angles;
     rf_scatter_values := but_last values;
     rf_xticks := but_last angles; rf_xticklabels := labels;
     rf_ylim := (0, 100);
     rf_title := ("Manager DNA: " ++ get (manager r) "Unknown")%string |}.

Definition plot_dna_radar (self : AegisVisualizer) : Py unit :=
  (r <- self_results self ;;
   let fig := radar_figure r in
   self_plt self ;;;
   savefig self "01_manager_dna_radar.png" (Radar fig) ;;;
   print "  ✓ 01_manager_dna_radar.png")%py.

(** *** 02: formation usage (fixed sample data) *)

Definition plot_formation_usage (self : AegisVisualizer) : Py unit :=
  (self_plt self ;;;
   let formations := ["4-3-3"; "3-5-2"; "4-2-3-1"; "3-4-3"; "5-3-2"] in
   let usage := [395 # 10; 263 # 10; 171 # 10; 105 # 10; 66 # 10] in
   c <- COLORS_item "primary" ;;
   let bars :=
     map (fun fu : string * Q =>
            {| lb_label := fst fu; lb_width := snd fu; lb_color := c;
               lb_text := Percent (snd fu) |})
         (combine formations usage) in
   savefig self "02_formation_usage.png"
     (Bars {| bc_bars := bars; bc_inverted := false; bc_xlim := (0, 50);
              bc_legend := []; bc_title := "Formation Usage" |}) ;;;
   print "  ✓ 02_formation_usage.png")%py.

Section Parsers.
(** The built-in conversions [float(text)] and [int(text)]; [None] is
    their [ValueError]. *)
Variable py_float : string -> option Q.
Variable py_int : string -> option Z.

Definition float_of (s : string) : Py Q :=
  match py_float s with
  | Some q => ret q
  | None => raise ValueError
  end.


(** *** 03: squad fit scores *)

(** [float(x.get("Fit Score", 0))] *)
Definition fit_score_key (x : Row) : Py Q :=
  match Fit_Score x with
  | Some s => float_of s
  | None => ret 0
  end.

(** [players.sort(key=..., reverse=True)]: the keys are computed first,
    one call per row. *)
Definition sort_players (players : list Row) : Py (list Row) :=
  (keys <- mapM fit_score_key players ;;
   ret (map snd (sort_desc fst (combine keys players))))%py.

Definition classification_labels : list string :=
  ["Key Enabler"; "Good Fit"; "System Dependent";
   "Potentially Marginalised"].

(** [self.COLORS.get(c, self.COLORS["secondary"])]: the default is looked
    up before the call. *)
Definition squad_fit_color (c : string) : Py color :=
  (fallback <- COLORS_item "secondary" ;;
   ret (get (dict_lookup c COLORS) fallback))%py.

Definition plot_squad_fit (self : AegisVisualizer) : Py unit :=
  (let squad_file := path_join (output_dir self) "squad_fit_scores.csv" in
   present <- path_exists squad_file ;;
   players <- (if present : bool then csv_rows squad_file else ret []) ;;
   match players with
   | [] => print "  ⚠ No squad fit data"
   | _ =>
       players <- sort_players players ;;
       self_plt self ;;;
       names <- mapM (fun p => item (Name p)) players ;;
       scores <- mapM (fun p => s <- item (Fit_Score p) ;; float_of s)
                      players ;;
       classifications <- mapM (fun p => item (Classification p))
                               players ;;
       colors <- mapM squad_fit_color classifications ;;
       let bars :=
         map (fun nsc : string * Q * color =>
                let '(n, s, c) := nsc in
                {| lb_label := n; lb_width := s; lb_color := c;
                   lb_text := Rounded (round_half_even s) |})
             (combine (combine names scores) colors) in
       handles <- mapM (fun c => col <- COLORS_item c ;; ret (c, col))
                       classification_labels ;;
       savefig self "03_squad_fit_scores.png"
         (Bars {| bc_bars := bars; bc_inverted := true;
                  bc_xlim := (0, 110); bc_legend := handles;
                  bc_title := "Squad Fit Scores" |}) ;;;
       print "  ✓ 03_squad_fit_scores.png"
   end)%py.

(** *** 04: the classification pie *)

(** [ax.pie(sizes, labels=..., colors=..., autopct="%1.0f%%")] of
    matplotlib: each size is divided by the sum of the sizes, and the text
    of a wedge is 100 times its share, printed with no decimals. *)
Definition ax_pie (data : list (string * Q * color)) : list Wedge :=
  let sx := sum_left (map (fun d => snd (fst d)) data) in
  map (fun d : string * Q * color =>
         let '(l, s, c) := d in
         {| wedge_label := l; wedge_frac := s / sx; wedge_color := c;
            wedge_pct := round_half_even (100 * (s / sx)) |})
      data.

(** [[(l, s, c) for l, s, c in zip(labels, sizes, colors) if s > 0]] *)
Definition nonzero (data : list (string * Q * color))
  : list (string * Q * color) :=
  filter (fun d => negb (Qle_bool (snd (fst d)) 0)) data.

Definition summary_sizes (summary : SquadSummary) : list Q :=
  [ get (key_enablers summary) 0; get (good_fit summary) 0;
    get (system_dependent summary) 0; get (marginalised summary) 0 ].

Definition plot_classification_pie (self : AegisVisualizer) : Py unit :=
  (r <- self_results self ;;
   let summary := get (squad_summary r) empty_summary in
   let labels := classification_labels in
   let sizes := summary_sizes summary in
   colors <- mapM COLORS_item labels ;;
   let data := nonzero (combine (combine labels sizes) colors) in
   match data with
   | [] => ret tt
   | _ =>
       self_plt self ;;;
       savefig self "04_classification_pie.png"
         (Pie "Squad Classification" (ax_pie data)) ;;;
       print "  ✓ 04_classification_pie.png"
   end)%py.

(** *** 05: the ideal XI on the pitch *)

Definition positions : list (string * (Q * Q)) :=
  [ ("GK", (50, 92)); ("LB", (15, 70)); ("CB1", (35, 75));
    ("CB2", (65, 75)); ("RB", (85, 70)); ("DM", (50, 55));
    ("CM", (30, 45)); ("AM", (70, 45)); ("LW", (15, 25));
    ("CF", (50, 15)); ("RW", (85, 25)) ].

(** The body of the loop over [ideal_xi]: [None] when the player is
    skipped. *)
Definition plot_player (player : PositionAssignment) : Py (option Marker) :=
  (let pos_key := get (xi_position player) EmptyString in
   match dict_lookup pos_key positions with
   | Some (x, y) =>
       let score := get (xi_fit_score player) 0 in
       color <-
         (if Qle_bool 75 score then COLORS_item "Key Enabler"
          else if Qle_bool 60 score then COLORS_item "Good Fit"
          else COLORS_item "System Dependent") ;;
       name <- last_item (py_split (get (xi_name player) EmptyString)) ;;
       ret (Some {| mk_x := x; mk_y := y; mk_color := color;
                    mk_score := round_half_even score; mk_name := name |})
   | None => ret None
   end)%py.

Definition plot_ideal_xi (self : AegisVisualizer) : Py unit :=
  (r <- self_results self ;;
   let players := get (ideal_xi r) [] in
   self_plt self ;;;
   drawn <- mapM plot_player players ;;
   savefig self "05_ideal_xi_pitch.png"
     (Pitch "Ideal XI (4-3-3)" (somes drawn)) ;;;
   print "  ✓ 05_ideal_xi_pitch.png")%py.

(** *** 06: recruitment priorities *)

Definition urgency_colors : list (string * color) :=
  [ ("Critical", "#ef4444"); ("High", "#f97316"); ("Medium", "#eab308") ].

(** [colors.get(u, "#64748b")] *)
Definition recruitment_color (u : string) : color :=
  get (dict_lookup u urgency_colors) "#64748b".

Definition plot_recruitment (self : AegisVisualizer) : Py unit :=
  (r <- self_results self ;;
   let needs := get (recruitment r) [] in
   match needs with
   | [] => print "  ⚠ No recruitment priorities"
   | _ =>
       self_plt self ;;;
       places <- mapM (fun n => item (rn_position n)) needs ;;
       gaps <- mapM (fun n => item (rn_gap n)) needs ;;
       urgencies <- mapM (fun n => item (rn_urgency n)) needs ;;
       let bar_colors := map recruitment_color urgencies in
       texts <- mapM (fun n => low <- item (rn_cost_low n) ;;
                               high <- item (rn_cost_high n) ;;
                               ret (CostRange low high)) needs ;;
       let bars :=
         map (fun b : string * Q * color * Annotation =>
                let '(p, g, c, t) := b in
                {| lb_label := p; lb_width := g; lb_color := c;
                   lb_text := t |})
             (combine (combine (combine places gaps) bar_colors) texts)
       in
       let xmax := match gaps with
                   | g :: gs => max_of g gs * (15 # 10)
                   | [] => 30
                   end in
       handles <- mapM (fun u => item (option_map (fun c => (u, c))
                                         (dict_lookup u urgency_colors)))
                       ["Critical"; "High"; "Medium"] ;;
       savefig self "06_recruitment_priorities.png"
         (Bars {| bc_bars := bars; bc_inverted := true;
                  bc_xlim := (0, xmax); bc_legend := handles;
                  bc_title := "Recruitment Priorities" |}) ;;;
       print "  ✓ 06_recruitment_priorities.png"
   end)%py.

(** *** 07: the executive summary *)

(** The key of [COLORS] behind a short label of the summary pie:
    [l.replace(" Dep.", " Dependent").replace("Marginalised",
    "Potentially Marginalised")]. *)
Definition summary_labels : list (string * string) :=
  [ ("Key Enabler", "Key Enabler"); ("Good Fit", "Good Fit");
    ("System Dep.", "System Dependent");
    ("Marginalised", "Potentially Marginalised") ].

Definition investment (recruitment_full : list RecruitmentNeed)
  : Q * Q * nat :=
  let total_low :=
    sum_left (map (fun r => get (rn_cost_low r) 0) recruitment_full) in
  let total_high :=
    sum_left (map (fun r => get (rn_cost_high r) 0) recruitment_full) in
  (total_low, total_high, List.length recruitment_full).

Definition plot_executive_summary (self : AegisVisualizer) : Py unit :=
  (self_plt self ;;;
   r <- self_results self ;;
   let title := ("Aegis Analysis: " ++ get (manager r) "Unknown")%string in
   let dims := get (dna_dimensions r) [] in
   c1 <- COLORS_item "primary" ;;
   let summary := get (squad_summary r) empty_summary in
   let sizes := summary_sizes summary in
   colors <- mapM (fun l => COLORS_item (snd l)) summary_labels ;;
   let data :=
     nonzero (combine (combine (map fst summary_labels) sizes) colors) in
   let pie := match data with
              | [] => []
              | _ => ax_pie data
              end in
   let metrics :=
     (get (matches_analysed r) 0, get (total summary) 0,
      round_half_even (10 * get (average_fit summary) 0),
      get (key_enablers summary) 0) in
   let ideal := firstn 5 (get (ideal_xi r) []) in
   top5 <-
     match ideal with
     | [] => ret []
     | _ =>
         names <- mapM (fun p => n <- item (xi_name p) ;;
                                 last_item (py_split n)) ideal ;;
         scores <- mapM (fun p => item (xi_fit_score p)) ideal ;;
         c4 <- COLORS_item "Key Enabler" ;;
         ret (combine names scores)
     end ;;
   let top_needs := firstn 4 (get (recruitment r) []) in
   needs <-
     match top_needs with
     | [] => ret []
     | _ =>
         places <- mapM (fun n => item (rn_position n)) top_needs ;;
         gaps <- mapM (fun n => item (rn_gap n)) top_needs ;;
         ret (combine places gaps)
     end ;;
   let recruitment_full := get (recruitment r) [] in
   savefig self "07_executive_summary.png"
     (Summary {| sf_title := title;
                 sf_dna := dims; sf_pie := pie; sf_metrics := metrics;
                 sf_top5 := top5; sf_needs := needs;
                 sf_investment := investment recruitment_full |}) ;;;
   print "  ✓ 07_executive_summary.png")%py.

(** *** The batch *)

Definition plot_all (self : AegisVisualizer) : Py unit :=
  if plt self then
    (print "
Generating visualizations..." ;;;
     plot_dna_radar self ;;;
     plot_formation_usage self ;;;
     plot_squad_fit self ;;;
     plot_classification_pie self ;;;
     plot_ideal_xi self ;;;
     plot_recruitment self ;;;
     plot_executive_summary self ;;;
     print ("
✓ All visualizations saved to: " ++ output_dir self)%string)%py
  else print "matplotlib required for visualizations".

(** *** The interactive dashboard *)

(** [_generate_dashboard_html]: the page is a fixed text around the
    constants it embeds; the document is represented by these constants,
    and the components of its script are the functions of the next
    section. *)
Definition _generate_dashboard_html
    (manager primary_formation : string) (matches : Q)
    (dna_dimensions : list (string * Q)) (squad_summary : SquadSummary)
    (squad_fit : list SquadFitEntry) (ideal_xi : list PositionAssignment)
    (recruitment : list RecruitmentNeed) : DashboardDocument :=
  {| managerName := manager; primaryFormation := primary_formation;
     matchesAnalysed := matches; dnaDimensions := dna_dimensions;
     squadSummary := squad_summary; squadFit := squad_fit;
     idealXI := ideal_xi; recruitment_js := recruitment |}.




(** The driver of the package: [run_full_analysis] wraps the whole
    visualization step in one [try ... except Exception]. *)
Definition visualize (dir : string) (matplotlib_installed : bool)
  : Py unit :=
  try_except
    (viz <- init dir matplotlib_installed ;;
     viz <- load_results viz ;;
     plot_all viz)%py
    (fun e => print "⚠ Visualization error").
End Parsers.

(** ** The script of the generated page *)

Definition classificationColors : list (string * color) :=
  [ ("Key Enabler", "#22c55e"); ("Good Fit", "#eab308");
    ("System Dependent", "#f97316"); ("Potentially Marginalised", "#ef4444") ].

Definition urgencyColors : list (string * color) :=
  [ ("Critical", "#ef4444"); ("High", "#f97316"); ("Medium", "#eab308") ].

(** [table[label]] of JavaScript on one of the object literals of the page:
    [None] is [undefined].  Only the keys written in the literal are
    modelled, not the members every object inherits ([constructor],
    [toString] and the like): labels are taken not to be such names. *)
Definition js_lookup {A} (table : list (string * A)) (label : string)
  : option A :=
  dict_lookup label table.

Record RadarPoint : Type := {
  pt_x : R;
  pt_y : R;
  pt_labelX : R;
  pt_labelY : R;
  pt_label : string;
  pt_value : Q;
  pt_text : Z                  (* [p.value.toFixed(0)] *)
}.

Inductive PathCmd : Type :=
| MoveTo (x y : R)
| LineTo (x y : R)
| ClosePath.

Record RadarSvg : Type := {
  svg_gridCircles : list R;    (* the radii *)
  svg_gridLines : list (R * R * R * R);
  svg_path : list PathCmd;
  svg_points : list RadarPoint
}.

(** [l.map((x, i) => ...)]: the elements with their indices.
    [Object.entries] lists the dimensions in the order of the document
    (names are taken not to be array indices, which it would list first). *)
Definition indexed {A} (l : list A) : list (nat * A) :=
  combine (seq 0 (List.length l)) l.

(** The angle of axis [i] and the distance of a value from the centre. *)
Definition radar_angle (count i : nat) : R :=
  let angleStep := (2 * PI / INR count)%R in
  (INR i * angleStep - PI / 2)%R.

Definition radar_r (radius : R) (value : Q) : R :=
  (Q2R value / 100 * radius)%R.

Definition DNARadar (doc : DashboardDocument) : RadarSvg :=
  let dims := dnaDimensions doc in
  let count := List.length dims in
  let cx := 150%R in
  let cy := 150%R in
  let radius := 100%R in
  let points :=
    map (fun d : nat * (string * Q) =>
           let '(i, (label, value)) := d in
           let angle := radar_angle count i in
           let r := radar_r radius value in
           {| pt_x := cx + r * cos angle; pt_y := cy + r * sin angle;
              pt_labelX := cx + (radius + 25) * cos angle;
              pt_labelY := cy + (radius + 25) * sin angle;
              pt_label := label; pt_value := value;
              pt_text := toFixed0 value |}%R)
        (indexed dims) in
  let pathD :=
    map (fun p : nat * RadarPoint =>
           match fst p with
           | O => MoveTo (pt_x (snd p)) (pt_y (snd p))
           | S _ => LineTo (pt_x (snd p)) (pt_y (snd p))
           end)
        (indexed points) ++ [ClosePath] in
  let gridCircles :=
    map (fun pct : R => (radius * pct / 100)%R) [25; 50; 75; 100]%R in
  let gridLines :=
    map (fun d : nat * (string * Q) =>
           let angle := radar_angle count (fst d) in
           (cx, cy, cx + radius * cos angle, cy + radius * sin angle)%R)
        (indexed dims) in
  {| svg_gridCircles := gridCircles; svg_gridLines := gridLines;
     svg_path := pathD; svg_points := points |}.

Definition positions_js : list (string * (Q * Q)) :=
  [ ("GK", (50, 90)); ("LB", (15, 70)); ("CB1", (35, 75));
    ("CB2", (65, 75)); ("RB", (85, 70)); ("DM", (50, 55));
    ("CM", (30, 45)); ("AM", (70, 45)); ("LW", (15, 25));
    ("CF", (50, 15)); ("RW", (85, 25)) ].

Record PlayerDiv : Type := {
  div_left : Q;                (* per cent of the pitch *)
  div_top : Q;
  div_bgColor : string;
  div_score : Z;
  div_name : string
}.

(** [player.name?.split(' ').pop() || 'Unknown'] *)
Definition js_surname (name : option string) : string :=
  match name with
  | None => "Unknown"
  | Some n =>
      let piece := List.last (js_split_space n) EmptyString in
      if String.eqb piece EmptyString then "Unknown" else piece
  end.

(** The callback of [idealXI.map]: [None] is the [null] that React does not
    render.  A player without [position] is looked up under [undefined],
    which the table does not have. *)
Definition pitch_player (player : PositionAssignment) : option PlayerDiv :=
  match xi_position player with
  | None => None
  | Some key =>
      match js_lookup positions_js key with
      | None => None
      | Some (x, y) =>
          let score := or_zero (xi_fit_score player) in
          let bgColor :=
            if Qle_bool 75 score then "bg-green-500"
            else if Qle_bool 60 score then "bg-yellow-500"
            else "bg-orange-500" in
          Some {| div_left := x; div_top := y; div_bgColor := bgColor;
                  div_score := toFixed0 score;
                  div_name := js_surname (xi_name player) |}
      end
  end.

Definition IdealXIPitch (doc : DashboardDocument) : list (option PlayerDiv) :=
  map pitch_player (idealXI doc).

Record FitBar : Type := {
  fb_name : string;
  fb_width : Q;                (* per cent *)
  fb_backgroundColor : option color;
  fb_text : Z
}.

Definition sorted_top15 (doc : DashboardDocument) : list SquadFitEntry :=
  firstn 15 (sort_desc sq_score (squadFit doc)).

Definition SquadFitChart (doc : DashboardDocument) : list FitBar :=
  let sorted := sorted_top15 doc in
  let maxScore := max_of 100 (map sq_score sorted) in
  map (fun player =>
         {| fb_name := sq_name player;
            fb_width := sq_score player / maxScore * 100;
            fb_backgroundColor :=
              js_lookup classificationColors (sq_classification player);
            fb_text := toFixed0 (sq_score player) |})
      sorted.

(** The badge of a row of [RecruitmentTable]. *)
Definition urgency_badge (r : RecruitmentNeed) : option color :=
  match rn_urgency r with
  | Some u => js_lookup urgencyColors u
  | None => None
  end.

Definition totalInvestLow (doc : DashboardDocument) : Q :=
  fold_left (fun a b => a + or_zero (rn_cost_low b)) (recruitment_js doc) 0.

Definition totalInvestHigh (doc : DashboardDocument) : Q :=
  fold_left (fun a b => a + or_zero (rn_cost_high b)) (recruitment_js doc) 0.

(** ** The vocabulary of the specification *)

(** An angle given in degrees, in radians. *)
Definition deg (d : R) : R := (d * PI / 180)%R.



Definition urgency_labels : list string := ["Critical"; "High"; "Medium"].

Definition known_labels : list string :=
  classification_labels ++ urgency_labels.

Definition secondary : color := "#64748b".



(** The sum of a numeric field over a list. *)
Fixpoint total_of {A} (field : A -> Q) (l : list A) : Q :=
  match l with
  | [] => 0
  | a :: l' => field a + total_of field l'
  end.

Definition cost_low_of (r : RecruitmentNeed) : Q := get (rn_cost_low r) 0.
Definition cost_high_of (r : RecruitmentNeed) : Q := get (rn_cost_high r) 0.



(** ** Sample inputs *)

(** A reading of plain decimal numerals, standing for [float] and [int] on
    the sample tables. *)
Definition digit_of (c : ascii) : option Z :=
  let n := nat_of_ascii c in
  if ((48 <=? n) && (n <=? 57))%nat then Some (Z.of_nat (n - 48)) else None.

Fixpoint digits_from (s : string) (acc : Z) : option Z :=
  match s with
  | EmptyString => Some acc
  | String c s' =>
      match digit_of c with
      | Some d => digits_from s' (10 * acc + d)%Z
      | None => None
      end
  end.

Definition decimal_int (s : string) : option Z :=
  match s with
  | EmptyString => None
  | _ => digits_from s 0%Z
  end.

Definition decimal_float (s : string) : option Q :=
  option_map inject_Z (decimal_int s).

Definition sample_dimensions : list (string * Q) :=
  [("A", 100); ("B", 0); ("C", 50)].

Definition no_result : AnalysisResult :=
  {| manager := None; primary_formation := None; matches_analysed := None;
     dna_dimensions := None; squad_summary := None; ideal_xi := None;
     recruitment := None; other_keys := [] |}.

Definition sample_needs : list RecruitmentNeed :=
  [ {| rn_position := Some "CB"; rn_gap := Some 12;
       rn_urgency := Some "Critical"; rn_timeline := Some "January";
       rn_cost_low := Some 10; rn_cost_high := Some 20 |};
    {| rn_position := Some "LW"; rn_gap := Some 6;
       rn_urgency := Some "Watch"; rn_timeline := Some "Summer";
       rn_cost_low := Some 5; rn_cost_high := Some 8 |} ].

Definition sample_xi : list PositionAssignment :=
  [ {| xi_position := Some "GK"; xi_name := Some "Guglielmo Vicario";
       xi_fit_score := Some 81 |};
    {| xi_position := Some "SW"; xi_name := Some "Libero";
       xi_fit_score := Some 70 |};
    {| xi_position := Some "CF"; xi_name := Some "Dominic Solanke";
       xi_fit_score := Some (125 # 2) |} ].

Definition sample_summary : SquadSummary :=
  {| key_enablers := Some 1; good_fit := Some 1; system_dependent := Some 0;
     marginalised := Some 1; total := Some 3; average_fit := Some 66 |}.

Definition sample_result : AnalysisResult :=
  {| manager := Some "Thomas Frank"; primary_formation := Some "4-3-3";
     matches_analysed := Some 38; dna_dimensions := Some sample_dimensions;
     squad_summary := Some sample_summary; ideal_xi := Some sample_xi;
     recruitment := Some sample_needs; other_keys := [] |}.

Definition sample_rows : list Row :=
  [ {| Name := Some "Son"; Position := Some "LW"; Age := Some "32";
       Fit_Score := Some "70"; Classification := Some "Good Fit" |};
    {| Name := Some "Kulusevski"; Position := Some "RW"; Age := Some "24";
       Fit_Score := Some "82"; Classification := Some "Key Enabler" |};
    {| Name := Some "Maddison"; Position := Some "AM"; Age := Some "28";
       Fit_Score := Some "70"; Classification := Some "Loan" |} ].

Definition sample_dir : string := "out".

Definition sample_self : AegisVisualizer :=
  {| output_dir := sample_dir; results := Some sample_result;
     squad_fit_data := Some sample_rows; plt := true |}.

Definition sample_world : World :=
  {| files := [ ("out/aegis_analysis.json", Json sample_result);
                ("out/squad_fit_scores.csv", Csv sample_rows) ];
     stdout := [] |}.

Definition sample_document : DashboardDocument :=
  _generate_dashboard_html "Thomas Frank" "4-3-3" 38 sample_dimensions
    sample_summary
    [ {| sq_name := "Son"; sq_position := "LW"; sq_age := 32;
         sq_score := 70; sq_classification := "Good Fit" |};
      {| sq_name := "Kulusevski"; sq_position := "RW"; sq_age := 24;
         sq_score := 82; sq_classification := "Key Enabler" |};
      {| sq_name := "Maddison"; sq_position := "AM"; sq_age := 28;
         sq_score := 70; sq_classification := "Loan" |} ]
    sample_xi sample_needs.

Definition claim_example : list RecruitmentNeed :=
  [ {| rn_position := None; rn_gap := None; rn_urgency := None;
       rn_timeline := None; rn_cost_low := Some 10;
       rn_cost_high := Some 20 |};
    {| rn_position := None; rn_gap := None; rn_urgency := None;
       rn_timeline := None; rn_cost_low := Some 5;
       rn_cost_high := Some 8 |} ].

(** ** Notions used in the statements *)

(** What a computation came to. *)
Definition returned {W A} (o : outcome W A) : option A :=
  match o with
  | Return a _ => Some a
  | Raise _ _ => None
  end.

Definition raised {W A} (o : outcome W A) : option exn :=
  match o with
  | Return _ _ => None
  | Raise e _ => Some e
  end.

Definition world_after {W A} (o : outcome W A) : W :=
  match o with
  | Return _ w => w
  | Raise _ w => w
  end.

Section Rows.
Variable py_float : string -> option Q.
Variable py_int : string -> option Z.


(** The fit score of a row, 0 for a table without the column. *)
Definition row_score (p : Row) : Q :=
  match Fit_Score p with
  | Some s => get (py_float s) 0
  | None => 0
  end.

(** The entry that [generate_dashboard] embeds for a row that converts. *)
Definition entry_of (p : Row) : SquadFitEntry :=
  {| sq_name := get (Name p) "Unknown";
     sq_position := get (Position p) "Unknown";
     sq_age := match Age p with
               | Some s => get (py_int s) 25%Z
               | None => 25%Z
               end;
     sq_score := row_score p;
     sq_classification := get (Classification p) "Unknown" |}.

(** A row with the three cells that [plot_squad_fit] subscripts, and a fit
    score that is a number. *)
Definition row_complete (p : Row) : Prop :=
  Name p <> None /\ Classification p <> None
  /\ exists s, Fit_Score p = Some s /\ py_float s <> None.
End Rows.

Definition fresh_self : AegisVisualizer :=
  {| output_dir := sample_dir; results := None; squad_fit_data := None;
     plt := true |}.

(** An output directory with the results and no table. *)
Definition world_without_table : World :=
  {| files := [("out/aegis_analysis.json", Json sample_result)];
     stdout := [] |}.



(** The visualizer whose [ideal_xi] is replaced. *)
Definition with_ideal_xi (self : AegisVisualizer)
    (players : list PositionAssignment) : AegisVisualizer :=
  {| output_dir := output_dir self;
     results :=
       option_map
         (fun r =>
            {| manager := manager r;
               primary_formation := primary_formation r;
               matches_analysed := matches_analysed r;
               dna_dimensions := dna_dimensions r;
               squad_summary := squad_summary r;
               ideal_xi := Some players;
               recruitment := recruitment r;
               other_keys := other_keys r |})
         (results self);
     squad_fit_data := squad_fit_data self;
     plt := plt self |}.





(** The colours of the four classification labels, in the order of
    [classification_labels]. *)
Definition classification_colors : list color :=
  ["#22c55e"; "#eab308"; "#f97316"; "#ef4444"].

(** The triples that [plot_classification_pie] keeps, and the count of a
    label in the summary. *)
Definition pie_data (summary : SquadSummary) : list (string * Q * color) :=
  nonzero (combine (combine classification_labels (summary_sizes summary))
                   classification_colors).



(** The bar that [plot_squad_fit] draws for a complete row. *)
Definition squad_bar (py_float : string -> option Q) (p : Row) : LabelledBar :=
  {| lb_label := get (Name p) EmptyString;
     lb_width := row_score py_float p;
     lb_color :=
       get (dict_lookup (get (Classification p) EmptyString) COLORS)
           secondary;
     lb_text := Rounded (round_half_even (row_score py_float p)) |}.

(** The seven routines in the order in which [plot_all] calls them. *)
Definition chart_routines (py_float : string -> option Q)
    (self : AegisVisualizer) : list (Py unit) :=
  [ plot_dna_radar self; plot_formation_usage self;
    plot_squad_fit py_float self; plot_classification_pie self;
    plot_ideal_xi self; plot_recruitment self;
    plot_executive_summary self ].

(** The world once [plot_all] has announced the batch, and once it has
    reported its end. *)
Definition announced (w : World) : World :=
  {| files := files w;
     stdout := stdout w ++ ["
Generating visualizations..."] |}.

Definition reported (self : AegisVisualizer) (w : World) : World :=
  {| files := files w;
     stdout := stdout w ++ [("
✓ All visualizations saved to: " ++ output_dir self)%string] |}.

(** An [ideal_xi] whose sixth player has no [name]. *)
Definition nameless_xi : list PositionAssignment :=
  [ {| xi_position := Some "GK"; xi_name := Some "Guglielmo Vicario";
       xi_fit_score := Some 81 |};
    {| xi_position := Some "LB"; xi_name := Some "Destiny Udogie";
       xi_fit_score := Some 77 |};
    {| xi_position := Some "CB1"; xi_name := Some "Cristian Romero";
       xi_fit_score := Some 74 |};
    {| xi_position := Some "CB2"; xi_name := Some "Micky van de Ven";
       xi_fit_score := Some 79 |};
    {| xi_position := Some "RB"; xi_name := Some "Pedro Porro";
       xi_fit_score := Some 68 |};
    {| xi_position := Some "DM"; xi_name := None;
       xi_fit_score := Some 59 |} ].

Definition nameless_result : AnalysisResult :=
  {| manager := Some "Thomas Frank"; primary_formation := Some "4-3-3";
     matches_analysed := Some 38; dna_dimensions := Some sample_dimensions;
     squad_summary := Some sample_summary; ideal_xi := Some nameless_xi;
     recruitment := Some sample_needs; other_keys := [] |}.

Definition nameless_world : World :=
  {| files := [ ("out/aegis_analysis.json", Json nameless_result);
                ("out/squad_fit_scores.csv", Csv sample_rows) ];
     stdout := [] |}.

Definition nameless_self : AegisVisualizer :=
  {| output_dir := sample_dir; results := Some nameless_result;
     squad_fit_data := Some sample_rows; plt := true |}.

(** [viz = AegisVisualizer(); viz.load_results(); viz.plot_all()] *)
Definition batch (py_float : string -> option Q) (dir : string) : Py unit :=
  (viz <- init dir true ;;
   viz <- load_results viz ;;
   plot_all py_float viz)%py.

(** The batch on the document with the nameless player, and the dashboard
    requested after the load of the empty document. *)
Definition nameless_outcome : outcome World unit :=
  batch decimal_float sample_dir nameless_world.





(** The names of the seven chart files, and their paths for a
    visualizer. *)
Definition chart_files : list string :=
  [ "01_manager_dna_radar.png"; "02_formation_usage.png";
    "03_squad_fit_scores.png"; "04_classification_pie.png";
    "05_ideal_xi_pitch.png"; "06_recruitment_priorities.png";
    "07_executive_summary.png" ].

Definition chart_paths (self : AegisVisualizer) : list string :=
  map (path_join (output_dir self)) chart_files.

(** A computation that, however it ends, leaves every file outside [paths]
    as it found it. *)
Definition writes_only {A} (paths : list string) (m : Py A) : Prop :=
  forall (w : World) (p : string),
    ~ In p paths ->
    lookup p (files (world_after (m w))) = lookup p (files w).

(** A recruitment entry with the five keys that [plot_recruitment]
    subscripts, and the bar drawn for it. *)
Definition need_complete (n : RecruitmentNeed) : Prop :=
  rn_position n <> None /\ rn_gap n <> None /\ rn_urgency n <> None
  /\ rn_cost_low n <> None /\ rn_cost_high n <> None.

Definition need_bar (n : RecruitmentNeed) : LabelledBar :=
  {| lb_label := get (rn_position n) EmptyString;
     lb_width := get (rn_gap n) 0;
     lb_color := recruitment_color (get (rn_urgency n) EmptyString);
     lb_text := CostRange (get (rn_cost_low n) 0) (get (rn_cost_high n) 0) |}.

(** The two bar panels of the executive summary, as the routine computes
    them from the entries it has kept. *)
Definition top5_panel (ideal : list PositionAssignment)
  : Py (list (string * Q)) :=
  match ideal with
  | [] => ret []
  | _ =>
      (names <- mapM (fun p => n <- item (xi_name p) ;;
                               last_item (py_split n)) ideal ;;
       scores <- mapM (fun p => item (xi_fit_score p)) ideal ;;
       c4 <- COLORS_item "Key Enabler" ;;
       ret (combine names scores))%py
  end.

Definition needs_panel (top_needs : list RecruitmentNeed)
  : Py (list (string * Q)) :=
  match top_needs with
  | [] => ret []
  | _ =>
      (places <- mapM (fun n => item (rn_position n)) top_needs ;;
       gaps <- mapM (fun n => item (rn_gap n)) top_needs ;;
       ret (combine places gaps))%py
  end.

(** The pie of the executive summary. *)
Definition summary_pie (summary : SquadSummary) : list Wedge :=
  let data :=
    nonzero (combine (combine (map fst summary_labels)
                              (summary_sizes summary))
                     classification_colors) in
  match data with
  | [] => []
  | _ => ax_pie data
  end.

(** The figure of the executive summary, given its two bar panels. *)
Definition summary_figure (r : AnalysisResult) (top5 needs : list (string * Q))
  : SummaryFigure :=
  let summary := get (squad_summary r) empty_summary in
  {| sf_title := ("Aegis Analysis: " ++ get (manager r) "Unknown")%string;
     sf_dna := get (dna_dimensions r) [];
     sf_pie := summary_pie summary;
     sf_metrics :=
       (get (matches_analysed r) 0, get (total summary) 0,
        round_half_even (10 * get (average_fit summary) 0),
        get (key_enablers summary) 0);
     sf_top5 := top5; sf_needs := needs;
     sf_investment := investment (get (recruitment r) []) |}.

(** The short label that the summary pie prints for a classification. *)
Definition short_label (label : string) : string :=
  if String.eqb label "System Dependent" then "System Dep."
  else if String.eqb label "Potentially Marginalised" then "Marginalised"
  else label.

(** A wedge under the short label of its classification. *)
Definition relabel (x : Wedge) : Wedge :=
  {| wedge_label := short_label (wedge_label x);
     wedge_frac := wedge_frac x; wedge_color := wedge_color x;
     wedge_pct := wedge_pct x |}.

(** The overview of the page: one tile per key of [classificationColors],
    with [squadFit.filter(p => p.classification === cls).length]. *)
Definition classification_count (doc : DashboardDocument) (cls : string)
  : nat :=
  List.length
    (filter (fun p => String.eqb (sq_classification p) cls) (squadFit doc)).

Definition classification_tiles (doc : DashboardDocument)
  : list (string * color * nat) :=
  map (fun '(cls, color) => (cls, color, classification_count doc cls))
      classificationColors.

(** The entries no tile counts. *)
Definition unclassified (doc : DashboardDocument) : list SquadFitEntry :=
  filter (fun p => negb (existsb (String.eqb (sq_classification p))
                                 (map fst classificationColors)))
         (squadFit doc).

(** The recruitment tab of the page:
    [recruitment.filter(r => r.timeline === name)]. *)
Definition in_window (name : string) (r : RecruitmentNeed) : bool :=
  match rn_timeline r with
  | Some t => String.eqb t name
  | None => false
  end.

Definition window (name : string) (doc : DashboardDocument)
  : list RecruitmentNeed :=
  filter (in_window name) (recruitment_js doc).

(** The entries neither window lists. *)
Definition unscheduled (doc : DashboardDocument) : list RecruitmentNeed :=
  filter (fun r => negb (in_window "January" r || in_window "Summer" r))
         (recruitment_js doc).





(** * Properties *)

(** ** The model on the sample inputs *)

Example py_split_runs : py_split " Harry  Kane " = ["Harry"; "Kane"].
Proof. reflexivity. Qed.

Example js_surname_trailing_space :
  js_surname (Some "Harry Kane ") = "Unknown"
  /\ js_surname (Some "Harry Kane") = "Kane".
Proof. split; reflexivity. Qed.

Example rounding_of_ties :
  map round_half_even [5 # 2; 7 # 2; -5 # 2] = [2; 4; -2]%Z
  /\ map toFixed0 [5 # 2; 7 # 2; -5 # 2] = [3; 4; -3]%Z.
Proof. split; reflexivity. Qed.

Example sample_batch_prints :
  stdout (world_after (batch decimal_float sample_dir sample_world))
  = [ "✓ Loaded results for: Thomas Frank";
      "
Generating visualizations...";
      "  ✓ 01_manager_dna_radar.png"; "  ✓ 02_formation_usage.png";
      "  ✓ 03_squad_fit_scores.png"; "  ✓ 04_classification_pie.png";
      "  ✓ 05_ideal_xi_pitch.png"; "  ✓ 06_recruitment_priorities.png";
      "  ✓ 07_executive_summary.png";
      "
✓ All visualizations saved to: out" ].
Proof. reflexivity. Qed.

Example sample_page_pitch :
  map div_name (somes (IdealXIPitch sample_document))
  = ["Vicario"; "Solanke"].
Proof. reflexivity. Qed.

(** ** Dictionaries *)

Lemma dict_lookup_None {A} (k : string) (d : list (string * A)) :
  ~ In k (map fst d) -> dict_lookup k d = None.
Proof.
  induction d as [| [k' v] d IH]; simpl; intros Hk.
  - reflexivity.
  - destruct (String.eqb_spec k' k) as [-> | Hne].
    + exfalso. apply Hk. now left.
    + apply IH. intros Hin. apply Hk. now right.
Qed.

Lemma dict_lookup_Some_In {A} (k : string) (d : list (string * A)) (v : A) :
  dict_lookup k d = Some v -> In k (map fst d).
Proof.
  induction d as [| [k' v'] d IH]; simpl; intros H.
  - discriminate.
  - destruct (String.eqb_spec k' k) as [-> | Hne].
    + now left.
    + right. now apply IH.
Qed.

(** ** Colours (C6) *)

Lemma COLORS_item_secondary (w : World) :
  COLORS_item "secondary" w = Return secondary w.
Proof. reflexivity. Qed.

(** C6, as stated, fails: the label ["primary"] is neither a classification
    nor an urgency label, and the lookup of [plot_squad_fit] gives it the
    blue of the table, not the neutral slate; and the lookup of the
    generated page has no default at all (here for the label ["Loan"]). *)
Lemma color_lookup_not_always_neutral :
  ~ In "primary" known_labels
  /\ squad_fit_color "primary" sample_world = Return "#3b82f6" sample_world
  /\ "#3b82f6" <> secondary
  /\ ~ In "Loan" known_labels
  /\ js_lookup classificationColors "Loan" = None.
Proof.
  repeat split; try reflexivity; try discriminate;
    simpl; intuition discriminate.
Qed.

(** C6, amended: in the static renderers, a label that is not a key of the
    table consulted gets the neutral slate [#64748b], whatever else it is:
    the table [COLORS] in [plot_squad_fit], the urgency table in
    [plot_recruitment]; and these two lookups return, without raising, for
    every label. *)
Theorem color_lookup_fallback :
  forall (label : string) (w : World),
    (~ In label (map fst COLORS) ->
     squad_fit_color label w = Return secondary w)
    /\ (exists c, squad_fit_color label w = Return c w)
    /\ (~ In label urgency_labels -> recruitment_color label = secondary).
Proof.
  intros label w. repeat split.
  - intros H. unfold squad_fit_color, bind.
    rewrite COLORS_item_secondary. unfold ret.
    now rewrite (dict_lookup_None label COLORS H).
  - unfold squad_fit_color, bind.
    rewrite COLORS_item_secondary. unfold ret. eauto.
  - intros H. unfold recruitment_color.
    now rewrite (dict_lookup_None label urgency_colors H).
Qed.

Lemma color_lookup_fallback_witness :
  squad_fit_color "Loan" sample_world = Return secondary sample_world
  /\ recruitment_color "Watch" = secondary.
Proof.
  split.
  - apply (color_lookup_fallback "Loan" sample_world).
    simpl; intuition discriminate.
  - apply (color_lookup_fallback "Watch" sample_world).
    simpl; intuition discriminate.
Defined.

(** ** The investment total (C8) *)



Lemma or_zero_get (x : option Q) : or_zero x == get x 0.
Proof.
  destruct x as [v |]; simpl; [| reflexivity].
  destruct (Qeq_bool v 0) eqn:E; [| reflexivity].
  symmetry. now apply Qeq_bool_eq.
Qed.

Lemma reduce_total {A} (field : A -> option Q) (l : list A) (a : Q) :
  fold_left (fun acc b => acc + or_zero (field b)) l a
  == a + total_of (fun b => get (field b) 0) l.
Proof.
  revert a. induction l as [| x l IH]; intros a; simpl.
  - ring.
  - rewrite IH, or_zero_get. ring.
Qed.




(** ** The radar (C1, C9) *)




Lemma linspace_open_nth (start stop : R) (num i : nat) :
  (i < num)%nat ->
  nth_error (linspace_open start stop num) i
  = Some (INR i * ((stop - start) / INR num) + start)%R.
Proof.
  intros Hi. unfold linspace_open.
  rewrite (map_nth_error _ i (seq 0 num) (d := i)); [reflexivity |].
  rewrite (nth_error_nth' _ O) by (rewrite length_seq; exact Hi).
  now rewrite seq_nth.
Qed.

Lemma indexed_nth {A} (l : list A) (i : nat) (a : A) :
  nth_error l i = Some a -> nth_error (indexed l) i = Some (i, a).
Proof.
  intros H. unfold indexed.
  assert (Hi : (i < List.length l)%nat)
    by (apply nth_error_Some; congruence).
  rewrite (nth_error_nth' _ (O, a))
    by (rewrite length_combine, length_seq, Nat.min_id; exact Hi).
  rewrite combine_nth by now rewrite length_seq.
  rewrite seq_nth by exact Hi.
  now rewrite (nth_error_nth _ _ a H).
Qed.


(** The example of section 8: three dimensions are at -90, 30 and 150
    degrees in the generated page. *)
Example radar_angles_of_three :
  radar_angle 3 0 = deg (-90) /\ radar_angle 3 1 = deg 30
  /\ radar_angle 3 2 = deg 150.
Proof.
  unfold radar_angle, deg. simpl INR. repeat split; field.
Qed.





(** C9: with no dimension, [plot_dna_radar] returns, having saved a figure
    whose every list is empty (the polar frame alone), and [DNARadar]
    yields the four grid circles, no spoke, no vertex and the path that only
    closes. *)
Theorem empty_radar :
  forall (self : AegisVisualizer) (r : AnalysisResult) (w : World)
         (doc : DashboardDocument),
    results self = Some r ->
    plt self = true ->
    get (dna_dimensions r) [] = [] ->
    dnaDimensions doc = [] ->
    (exists (w' : World) (fig : RadarFigure),
        plot_dna_radar self w = Return tt w'
        /\ lookup (path_join (output_dir self) "01_manager_dna_radar.png")
                  (files w') = Some (Png (Radar fig))
        /\ rf_angles fig = [] /\ rf_values fig = []
        /\ rf_scatter_angles fig = [] /\ rf_scatter_values fig = []
        /\ rf_xticks fig = [] /\ rf_xticklabels fig = [])
    /\ svg_points (DNARadar doc) = []
    /\ svg_gridLines (DNARadar doc) = []
    /\ svg_path (DNARadar doc) = [ClosePath]
    /\ svg_gridCircles (DNARadar doc) = [25; 50; 75; 100]%R.
Proof.
  intros self r w doc Hr Hplt Hd Hdoc. split.
  - unfold plot_dna_radar, self_results, self_plt, bind.
    rewrite Hr, Hplt. cbn.
    eexists. eexists. split; [reflexivity |]. cbn.
    rewrite String.eqb_refl. split; [reflexivity |].
    unfold radar_figure. rewrite Hd. cbn. repeat split.
  - unfold DNARadar. rewrite Hdoc. cbn. repeat split.
    repeat f_equal; lra.
Qed.

Lemma empty_radar_witness :
  svg_path (DNARadar (_generate_dashboard_html "x" "4-3-3" 0 [] empty_summary
                        [] [] []))
  = [ClosePath].
Proof.
  apply (empty_radar
           {| output_dir := sample_dir; results := Some no_result;
              squad_fit_data := None; plt := true |}
           (r := no_result) sample_world
           (_generate_dashboard_html "x" "4-3-3" 0 [] empty_summary [] [] [])
           eq_refl eq_refl eq_refl eq_refl).
Defined.

(** ** Loops without effect *)

Lemma mapM_pure {W A B} (f : A -> M W B) (g : A -> B) (l : list A) (w : W) :
  (forall a, In a l -> f a w = Return (g a) w) ->
  mapM f l w = Return (map g l) w.
Proof.
  induction l as [| a l IH]; intros H; simpl.
  - reflexivity.
  - unfold bind. rewrite (H a (or_introl eq_refl)).
    rewrite IH by (intros b Hb; apply H; now right).
    reflexivity.
Qed.

(** ** The loader (C3) *)

(** C3, as stated, fails in its second half: with the results present and
    the table absent, [load_results] returns, but the rows it leaves in
    [squad_fit_data] are [None], not the empty list, and the only line
    printed is the one that reports the results. *)
Lemma load_without_table_leaves_none :
  option_map squad_fit_data
    (returned (load_results fresh_self world_without_table)) = Some None
  /\ stdout (world_after (load_results fresh_self world_without_table))
     = ["✓ Loaded results for: Thomas Frank"].
Proof. split; reflexivity. Qed.

(** C3, amended: [load_results] raises [FileNotFoundError], having printed
    and changed nothing, whenever the results document is absent from the
    output directory; when the document is there and only the table is
    absent, it returns with the document loaded, leaves [squad_fit_data] as
    it was ([None] on a new visualizer, not an empty list), and prints
    nothing but the line that reports the results. *)
Theorem load_results_files :
  forall (self : AegisVisualizer) (w : World),
    let results_file := path_join (output_dir self) "aegis_analysis.json" in
    let squad_file := path_join (output_dir self) "squad_fit_scores.csv" in
    (lookup results_file (files w) = None ->
     load_results self w = Raise FileNotFoundError w)
    /\ (forall doc : AnalysisResult,
           lookup results_file (files w) = Some (Json doc) ->
           lookup squad_file (files w) = None ->
           load_results self w
           = Return {| output_dir := output_dir self; results := Some doc;
                       squad_fit_data := squad_fit_data self;
                       plt := plt self |}
                    {| files := files w;
                       stdout := stdout w
                                 ++ [("✓ Loaded results for: "
                                      ++ get (manager doc) "Unknown")%string]
                    |}).
Proof.
  intros self w results_file squad_file. split.
  - intros H. unfold load_results, bind, path_exists, exists_file.
    fold results_file. rewrite H. reflexivity.
  - intros doc Hdoc Hsq.
    unfold load_results, bind, path_exists, exists_file, json_load.
    cbv zeta. fold results_file. fold squad_file.
    clearbody results_file squad_file.
    rewrite Hdoc. cbv beta iota delta [is_some].
    rewrite Hdoc. cbn. rewrite Hsq. reflexivity.
Qed.

Lemma load_results_files_witness :
  load_results {| output_dir := sample_dir; results := None;
                  squad_fit_data := None; plt := true |}
               {| files := []; stdout := [] |}
  = Raise FileNotFoundError {| files := []; stdout := [] |}.
Proof.
  apply (load_results_files
           {| output_dir := sample_dir; results := None;
              squad_fit_data := None; plt := true |}
           {| files := []; stdout := [] |}).
  reflexivity.
Defined.

(** ** The dashboard generator (C10) *)





(** ** The pitch (C7) *)














(** ** The classification pie (C5) *)











(** ** The stable sort (C4) *)

Section SortFacts.
Variable A : Type.
Variable key : A -> Q.

Lemma insert_desc_perm (x : A) (l : list A) :
  Permutation (insert_desc key x l) (x :: l).
Proof.
  induction l as [| y l IH]; simpl.
  - apply Permutation_refl.
  - destruct (Qle_bool (key y) (key x)).
    + apply Permutation_refl.
    + apply perm_trans with (y :: x :: l).
      * now apply perm_skip.
      * apply perm_swap.
Qed.

Lemma sort_desc_perm (l : list A) : Permutation (sort_desc key l) l.
Proof.
  induction l as [| x l IH]; simpl.
  - apply perm_nil.
  - apply perm_trans with (x :: sort_desc key l).
    + apply insert_desc_perm.
    + now apply perm_skip.
Qed.





(** Sorting the rows paired with their keys is sorting the rows. *)
Lemma insert_desc_keyed (x : A) (l : list A) :
  insert_desc fst (key x, x) (map (fun a => (key a, a)) l)
  = map (fun a => (key a, a)) (insert_desc key x l).
Proof.
  induction l as [| y l IH]; simpl.
  - reflexivity.
  - destruct (Qle_bool (key y) (key x)); simpl; [reflexivity |].
    now rewrite IH.
Qed.

Lemma sort_desc_keyed (l : list A) :
  map snd (sort_desc fst (combine (map key l) l)) = sort_desc key l.
Proof.
  assert (Hc : combine (map key l) l = map (fun a => (key a, a)) l).
  { induction l as [| x l IH]; simpl; [reflexivity | now rewrite IH]. }
  rewrite Hc. clear Hc.
  assert (Hs : sort_desc fst (map (fun a => (key a, a)) l)
               = map (fun a => (key a, a)) (sort_desc key l)).
  { induction l as [| x l IH]; simpl; [reflexivity |].
    rewrite IH. apply insert_desc_keyed. }
  rewrite Hs, map_map. simpl. apply map_id.
Qed.
End SortFacts.

Lemma combine_map3 {A B C D} (f : A -> B) (g : A -> C) (h : A -> D)
    (l : list A) :
  combine (combine (map f l) (map g l)) (map h l)
  = map (fun a => (f a, g a, h a)) l.
Proof.
  induction l as [| a l IH]; simpl; [reflexivity | now rewrite IH].
Qed.

Section SquadFit.
Variable py_float : string -> option Q.

Lemma fit_score_key_complete (p : Row) (w : World) :
  row_complete py_float p ->
  fit_score_key py_float p w = Return (row_score py_float p) w.
Proof.
  intros (_ & _ & s & Hs & Hf).
  unfold fit_score_key, row_score, float_of. rewrite Hs.
  destruct (py_float s); [reflexivity | easy].
Qed.

Lemma sort_players_complete (players : list Row) (w : World) :
  Forall (row_complete py_float) players ->
  sort_players py_float players w
  = Return (sort_desc (row_score py_float) players) w.
Proof.
  intros H. unfold sort_players, bind.
  rewrite (mapM_pure _ (row_score py_float)).
  - unfold ret. now rewrite sort_desc_keyed.
  - intros a Ha. apply fit_score_key_complete.
    rewrite Forall_forall in H. now apply H.
Qed.

Lemma plot_squad_fit_complete (self : AegisVisualizer) (w : World)
    (players : list Row) :
  lookup (path_join (output_dir self) "squad_fit_scores.csv") (files w)
  = Some (Csv players) ->
  players <> [] ->
  Forall (row_complete py_float) players ->
  plt self = true ->
  exists (w' : World) (chart : BarChart),
    plot_squad_fit py_float self w = Return tt w'
    /\ lookup (path_join (output_dir self) "03_squad_fit_scores.png")
              (files w') = Some (Png (Bars chart))
    /\ bc_inverted chart = true
    /\ bc_bars chart
       = map (squad_bar py_float) (sort_desc (row_score py_float) players).
Proof.
  intros Hfile Hne Hall Hplt.
  assert (Hrank : forall a,
             In a (sort_desc (row_score py_float) players) ->
             row_complete py_float a).
  { intros a Ha. rewrite Forall_forall in Hall. apply Hall.
    eapply Permutation_in; [apply sort_desc_perm | exact Ha]. }
  set (ranking := sort_desc (row_score py_float) players) in *.
  unfold plot_squad_fit, bind, path_exists, exists_file, csv_rows.
  rewrite Hfile. cbv beta iota delta [is_some]. rewrite Hfile.
  destruct players as [| p ps]; [now elim Hne |].
  rewrite (sort_players_complete w Hall). fold ranking.
  unfold self_plt. rewrite Hplt. cbv beta iota delta [ret].
  rewrite (mapM_pure _ (fun a => get (Name a) EmptyString))
    by (intros a Ha; destruct (Hrank a Ha) as (Hn & _);
        destruct (Name a); [reflexivity | easy]).
  rewrite (mapM_pure _ (row_score py_float)).
  2:{ intros a Ha. destruct (Hrank a Ha) as (_ & _ & s & Hs & Hf).
      unfold bind, float_of, row_score. rewrite Hs. simpl.
      destruct (py_float s); [reflexivity | easy]. }
  rewrite (mapM_pure _ (fun a => get (Classification a) EmptyString))
    by (intros a Ha; destruct (Hrank a Ha) as (_ & Hc & _);
        destruct (Classification a); [reflexivity | easy]).
  rewrite (mapM_pure _ (fun c => get (dict_lookup c COLORS) secondary))
    by (intros; reflexivity).
  rewrite map_map, combine_map3.
  eexists. eexists. split; [reflexivity |].
  split; [simpl; now rewrite String.eqb_refl |].
  split; [reflexivity |].
  simpl bc_bars. rewrite map_map. reflexivity.
Qed.
End SquadFit.



(** ** The batch (C2) *)

Lemma run_all_app {W} (pre post : list (M W unit)) (routine : M W unit)
    (w : W) :
  run_all (pre ++ routine :: post) w
  = match run_all pre w with
    | Return _ w1 =>
        match routine w1 with
        | Return _ w2 => run_all post w2
        | Raise e w2 => Raise e w2
        end
    | Raise e w1 => Raise e w1
    end.
Proof.
  revert w. induction pre as [| s pre IH]; intros w; simpl.
  - reflexivity.
  - unfold bind. destruct (s w) as [[] w1 |]; [apply IH | reflexivity].
Qed.

Lemma plot_all_run_all (py_float : string -> option Q)
    (self : AegisVisualizer) (w : World) :
  plt self = true ->
  plot_all py_float self w
  = match run_all (chart_routines py_float self) (announced w) with
    | Return _ w1 => Return tt (reported self w1)
    | Raise e w1 => Raise e w1
    end.
Proof.
  intros Hplt. unfold plot_all, chart_routines. rewrite Hplt.
  simpl run_all. unfold bind, print at 1. fold (announced w).
  repeat match goal with
         | |- context [match ?routine (announced w) with _ => _ end] =>
             destruct (routine (announced w)) as [[] ?w |];
             [| reflexivity]
         | w0 : World
           |- context [match ?routine ?w1 with _ => _ end] =>
             constr_eq w0 w1;
             destruct (routine w0) as [[] ?w |]; [| reflexivity]
         end.
  reflexivity.
Qed.

(** C2, as stated, fails: after a successful load of a results document
    whose sixth ideal-XI player has no name, [plot_all] raises the
    [IndexError] of [plot_ideal_xi]; the four charts before it are saved,
    and the two routines after it are not attempted, although each of them
    returns on this document. *)
Lemma batch_stops_at_first_failure :
  raised nameless_outcome = Some IndexError
  /\ exists_file "out/04_classification_pie.png"
       (world_after nameless_outcome) = true
  /\ exists_file "out/06_recruitment_priorities.png"
       (world_after nameless_outcome) = false
  /\ exists_file "out/07_executive_summary.png"
       (world_after nameless_outcome) = false
  /\ returned (plot_recruitment nameless_self (world_after nameless_outcome))
     = Some tt
  /\ returned (plot_executive_summary nameless_self
                 (world_after nameless_outcome)) = Some tt.
Proof. repeat split; reflexivity. Qed.

(** C2, amended: [plot_all] calls the seven chart routines one after the
    other with no exception handler, so the batch goes as far as the first
    routine that raises: its exception leaves [plot_all] with the world as
    that routine left it, and the routines after it are not attempted; when
    none raises, [plot_all] returns after its closing line, and without
    matplotlib it only prints a notice.  What a routine handles by itself is
    absent data: without a squad table [plot_squad_fit], and with no
    recruitment entry [plot_recruitment], print a notice and return.  The
    driver of the package catches the exception of the whole step once and
    prints it; it does not resume the batch. *)
Theorem plot_all_outcome :
  forall (py_float : string -> option Q) (self : AegisVisualizer)
         (w : World),
    (plt self = false ->
     plot_all py_float self w
     = print "matplotlib required for visualizations" w)
    /\ (forall (pre post : list (Py unit)) (routine : Py unit) (e : exn)
               (w1 w2 : World),
           plt self = true ->
           chart_routines py_float self = pre ++ routine :: post ->
           run_all pre (announced w) = Return tt w1 ->
           routine w1 = Raise e w2 ->
           plot_all py_float self w = Raise e w2)
    /\ (forall w1 : World,
           plt self = true ->
           run_all (chart_routines py_float self) (announced w)
           = Return tt w1 ->
           plot_all py_float self w = Return tt (reported self w1))
    /\ (lookup (path_join (output_dir self) "squad_fit_scores.csv")
               (files w) = None ->
        plot_squad_fit py_float self w = print "  ⚠ No squad fit data" w)
    /\ (forall r : AnalysisResult,
           results self = Some r -> get (recruitment r) [] = [] ->
           plot_recruitment self w
           = print "  ⚠ No recruitment priorities" w)
    /\ (forall (e : exn) (w' : World),
           batch py_float (output_dir self) w = Raise e w' ->
           visualize py_float (output_dir self) true w
           = print "⚠ Visualization error" w').
Proof.
  intros py_float self w. repeat split.
  - intros H. unfold plot_all. now rewrite H.
  - intros pre post routine e w1 w2 Hplt Hsplit Hpre Hr.
    rewrite (plot_all_run_all py_float self w Hplt), Hsplit.
    unfold Py in *.
    rewrite (run_all_app pre post routine (announced w)).
    now rewrite Hpre, Hr.
  - intros w1 Hplt Hrun.
    now rewrite (plot_all_run_all py_float self w Hplt), Hrun.
  - intros H. unfold plot_squad_fit, bind, path_exists, exists_file.
    now rewrite H.
  - intros r Hr Hempty. unfold plot_recruitment, bind, self_results.
    rewrite Hr. cbv beta iota delta [ret]. now rewrite Hempty.
  - intros e w' H. unfold visualize, try_except.
    change (bind (init (output_dir self) true)
              (fun viz => bind (load_results viz)
                            (fun viz0 => plot_all py_float viz0)) w)
      with (batch py_float (output_dir self) w).
    now rewrite H.
Qed.

Lemma plot_all_outcome_witness :
  plot_all decimal_float nameless_self nameless_world
  = Raise IndexError
      (world_after
         (plot_ideal_xi nameless_self
            (world_after
               (run_all [ plot_dna_radar nameless_self;
                          plot_formation_usage nameless_self;
                          plot_squad_fit decimal_float nameless_self;
                          plot_classification_pie nameless_self ]
                        (announced nameless_world))))).
Proof.
  apply (proj1 (proj2 (plot_all_outcome decimal_float nameless_self
                         nameless_world))
           [ plot_dna_radar nameless_self;
             plot_formation_usage nameless_self;
             plot_squad_fit decimal_float nameless_self;
             plot_classification_pie nameless_self ]
           [ plot_recruitment nameless_self;
             plot_executive_summary nameless_self ]
           (plot_ideal_xi nameless_self) IndexError
           (world_after
              (run_all [ plot_dna_radar nameless_self;
                         plot_formation_usage nameless_self;
                         plot_squad_fit decimal_float nameless_self;
                         plot_classification_pie nameless_self ]
                       (announced nameless_world))));
    reflexivity.
Defined.

(** * Further properties of the code *)

(** ** The two roundings of a score *)

Lemma Qfloor_unique (y : Q) (z : Z) :
  inject_Z z <= y -> y < inject_Z z + 1 -> Qfloor y = z.
Proof.
  intros Hlo Hhi.
  pose proof (Qfloor_le y) as Flo.
  pose proof (Qlt_floor y) as Fhi.
  rewrite inject_Z_plus in Fhi. change (inject_Z 1) with 1 in Fhi.
  assert (H1 : inject_Z (Qfloor y) < inject_Z (z + 1))
    by (rewrite inject_Z_plus; change (inject_Z 1) with 1; lra).
  assert (H2 : inject_Z z < inject_Z (Qfloor y + 1))
    by (rewrite inject_Z_plus; change (inject_Z 1) with 1; lra).
  rewrite <- Zlt_Qlt in H1, H2. lia.
Qed.

Lemma toFixed0_floor (x : Q) :
  let f := Qfloor x in
  (x - inject_Z f < 1 # 2 -> toFixed0 x = f)
  /\ (1 # 2 < x - inject_Z f -> toFixed0 x = (f + 1)%Z)
  /\ (x - inject_Z f == 1 # 2 ->
      toFixed0 x = if Qle_bool 0 x then (f + 1)%Z else f).
Proof.
  intros f. subst f.
  pose proof (Qfloor_le x) as Hlo.
  pose proof (Qlt_floor x) as Hhi.
  rewrite inject_Z_plus in Hhi. change (inject_Z 1) with 1 in Hhi.
  unfold toFixed0.
  destruct (Qle_bool 0 x) eqn:E.
  - apply Qle_bool_iff in E.
    rewrite (Qabs_pos x E).
    repeat split; intros H; apply Qfloor_unique;
      try (rewrite inject_Z_plus; change (inject_Z 1) with 1); lra.
  - assert (Hneg : x < 0).
    { apply Qnot_le_lt. intros Hle. apply Qle_bool_iff in Hle.
      now rewrite Hle in E. }
    rewrite (Qabs_neg x) by lra.
    repeat split; intros H.
    + rewrite (@Qfloor_unique (- x + (1 # 2)) (- Qfloor x)); [lia | |];
        rewrite inject_Z_opp; lra.
    + rewrite (@Qfloor_unique (- x + (1 # 2)) (- Qfloor x - 1)); [lia | |];
        unfold Z.sub; rewrite inject_Z_plus, inject_Z_opp;
        change (inject_Z (- (1))) with (- (1)); lra.
    + rewrite (@Qfloor_unique (- x + (1 # 2)) (- Qfloor x)); [lia | |];
        rewrite inject_Z_opp; lra.
Qed.

(** X1: the whole number that the static charts print for a score
    ([f"{score:.0f}"]) and the one the generated page prints
    ([score.toFixed(0)]) are the same unless the score lies exactly halfway
    between two integers, and then they differ by at most one. *)
Theorem score_labels_agree :
  forall x : Q,
    (~ x - inject_Z (Qfloor x) == 1 # 2 -> toFixed0 x = round_half_even x)
    /\ (Z.abs (toFixed0 x - round_half_even x) <= 1)%Z.
Proof.
  intros x.
  destruct (toFixed0_floor x) as (Hlt & Hgt & Heq).
  unfold round_half_even.
  destruct (x - inject_Z (Qfloor x) ?= 1 # 2)%Q eqn:E.
  - apply Qeq_alt in E. split; [intros H; now elim H |].
    rewrite (Heq E).
    destruct (Qle_bool 0 x); destruct (Z.even (Qfloor x)); lia.
  - apply Qlt_alt in E. rewrite (Hlt E). split; [reflexivity | lia].
  - apply Qgt_alt in E. rewrite (Hgt E). split; [reflexivity | lia].
Qed.

Lemma score_labels_agree_witness :
  toFixed0 (163 # 2) = 82%Z /\ round_half_even (163 # 2) = 82%Z
  /\ toFixed0 (812 # 10) = round_half_even (812 # 10).
Proof.
  split; [reflexivity |]. split; [reflexivity |].
  apply (score_labels_agree (812 # 10)). discriminate.
Defined.

(** ** The bar chart of the generated page *)

Lemma max_of_bounds (l : list Q) (first : Q) :
  first <= max_of first l /\ forall x, In x l -> x <= max_of first l.
Proof.
  unfold max_of. revert first.
  induction l as [| y l IH]; intros first; simpl.
  - split; [apply Qle_refl | easy].
  - destruct (IH (Qmax first y)) as [Hacc Hall].
    assert (Hm : first <= Qmax first y /\ y <= Qmax first y).
    { unfold Qmax. destruct (Qle_bool first y) eqn:E.
      - apply Qle_bool_iff in E. split; [exact E | apply Qle_refl].
      - split; [apply Qle_refl |].
        apply Qlt_le_weak, Qnot_le_lt. intros Hle.
        apply Qle_bool_iff in Hle. now rewrite Hle in E. }
    split; [lra |].
    intros x [<- | Hx]; [lra | now apply Hall].
Qed.

Lemma In_firstn {A} (n : nat) (l : list A) (x : A) :
  In x (firstn n l) -> In x l.
Proof.
  intros H. rewrite <- (firstn_skipn n l). apply in_or_app. now left.
Qed.

(** X2: [SquadFitChart] shows at most fifteen bars (all the entries when
    there are fewer), and when no score is negative every bar is between 0
    and 100 per cent wide: the scale is the larger of 100 and the largest
    score shown, so it is never 0. *)
Theorem squad_fit_chart_bounds :
  forall doc : DashboardDocument,
    (forall e, In e (squadFit doc) -> 0 <= sq_score e) ->
    List.length (SquadFitChart doc)
    = Nat.min 15 (List.length (squadFit doc))
    /\ 100 <= max_of 100 (map sq_score (sorted_top15 doc))
    /\ forall bar, In bar (SquadFitChart doc) ->
                   0 <= fb_width bar <= 100.
Proof.
  intros doc Hpos.
  assert (Hin : forall e, In e (sorted_top15 doc) -> In e (squadFit doc)).
  { intros e He. unfold sorted_top15 in He.
    apply (Permutation_in e (sort_desc_perm sq_score (squadFit doc))).
    eapply In_firstn; exact He. }
  destruct (max_of_bounds (map sq_score (sorted_top15 doc)) 100)
    as [Hfirst Hall].
  split; [| split].
  - unfold SquadFitChart, sorted_top15.
    rewrite length_map, length_firstn.
    now rewrite (Permutation_length (sort_desc_perm sq_score (squadFit doc))).
  - exact Hfirst.
  - intros bar Hbar. unfold SquadFitChart in Hbar.
    apply in_map_iff in Hbar. destruct Hbar as (e & <- & He).
    simpl fb_width.
    set (m := max_of 100 (map sq_score (sorted_top15 doc))) in *.
    assert (Hs : sq_score e <= m) by (apply Hall; now apply in_map).
    assert (H0 : 0 <= sq_score e) by (apply Hpos; now apply Hin).
    assert (Hm : 0 < m) by lra.
    assert (Hlo : 0 <= sq_score e / m)
      by (apply Qle_shift_div_l; [exact Hm | lra]).
    assert (Hhi : sq_score e / m <= 1)
      by (apply Qle_shift_div_r; [exact Hm | lra]).
    set (t := sq_score e / m) in *. split; lra.
Qed.

Lemma squad_fit_chart_bounds_witness :
  List.length (SquadFitChart sample_document) = 3%nat.
Proof.
  apply (squad_fit_chart_bounds sample_document).
  intros e He. simpl in He.
  decompose [or] He; try contradiction; subst e; discriminate.
Defined.

(** ** The names on the static pitch *)







(** ** The static pitch and the pitch of the page *)





(** ** The files a batch touches *)

Section Frame.
Variable paths : list string.

Lemma wo_ret {A} (a : A) : writes_only paths (ret a).
Proof. intros w p _. reflexivity. Qed.

Lemma wo_raise {A} (e : exn) : writes_only paths (@raise World A e).
Proof. intros w p _. reflexivity. Qed.

Lemma wo_print (line : string) : writes_only paths (print line).
Proof. intros w p _. reflexivity. Qed.

Lemma wo_write (path : string) (f : File) :
  In path paths -> writes_only paths (write_file path f).
Proof.
  intros Hin w p Hp. simpl.
  destruct (String.eqb_spec path p) as [-> | _]; [now elim Hp | reflexivity].
Qed.

Lemma wo_bind {A B} (m : Py A) (k : A -> Py B) :
  writes_only paths m -> (forall a, writes_only paths (k a)) ->
  writes_only paths (bind m k).
Proof.
  intros Hm Hk w p Hp. unfold bind.
  specialize (Hm w p Hp).
  destruct (m w) as [a w1 | e w1]; simpl in Hm.
  - rewrite (Hk a w1 p Hp). exact Hm.
  - exact Hm.
Qed.

Lemma wo_mapM {A B} (f : A -> Py B) (l : list A) :
  (forall a, writes_only paths (f a)) -> writes_only paths (mapM f l).
Proof.
  intros Hf. induction l as [| a l IH]; simpl.
  - apply wo_ret.
  - apply wo_bind; [apply Hf |]. intros b.
    apply wo_bind; [exact IH |]. intros bs. apply wo_ret.
Qed.

Lemma wo_reads {A} (m : Py A) :
  (forall w, world_after (m w) = w) -> writes_only paths m.
Proof. intros H w p _. now rewrite H. Qed.
End Frame.

Lemma reads_item {A} (field : option A) (w : World) :
  world_after (item field w) = w.
Proof. now destruct field. Qed.

Lemma reads_last_item {A} (l : list A) (w : World) :
  world_after (last_item l w) = w.
Proof. unfold last_item. now destruct (rev l). Qed.

Lemma reads_self_results (self : AegisVisualizer) (w : World) :
  world_after (self_results self w) = w.
Proof. unfold self_results. now destruct (results self). Qed.

Lemma reads_self_plt (self : AegisVisualizer) (w : World) :
  world_after (self_plt self w) = w.
Proof. unfold self_plt. now destruct (plt self). Qed.

Lemma reads_float_of (py_float : string -> option Q) (s : string)
    (w : World) :
  world_after (float_of py_float s w) = w.
Proof. unfold float_of. now destruct (py_float s). Qed.

Lemma reads_csv_rows (path : string) (w : World) :
  world_after (csv_rows path w) = w.
Proof.
  unfold csv_rows. now destruct (lookup path (files w)) as [[] |].
Qed.


(** One step of the proof that a routine writes only chart files. *)
Ltac frame_step :=
  match goal with
  | |- writes_only _ (bind _ _) => apply wo_bind; [| intros ?]
  | |- writes_only _ (ret _) => apply wo_ret
  | |- writes_only _ (raise _) => apply wo_raise
  | |- writes_only _ (print _) => apply wo_print
  | |- writes_only _ (mapM _ _) => apply wo_mapM; intros ?
  | |- writes_only _ (item _) => apply wo_reads, reads_item
  | |- writes_only _ (COLORS_item _) => apply wo_reads, reads_item
  | |- writes_only _ (last_item _) => apply wo_reads, reads_last_item
  | |- writes_only _ (self_results _) => apply wo_reads, reads_self_results
  | |- writes_only _ (self_plt _) => apply wo_reads, reads_self_plt
  | |- writes_only _ (float_of _ _) => apply wo_reads, reads_float_of
  | |- writes_only _ (csv_rows _) => apply wo_reads, reads_csv_rows
  | |- writes_only _ (path_exists _) => apply wo_reads; reflexivity
  | |- writes_only _ (savefig _ _ _) =>
      apply wo_write; unfold chart_paths; simpl; tauto
  | |- writes_only _ (if ?b then _ else _) => destruct b
  | |- writes_only _ (match ?x with _ => _ end) => destruct x
  end.

Section ChartFiles.
Variable py_float : string -> option Q.
Variable self : AegisVisualizer.

Lemma wo_plot_dna_radar :
  writes_only (chart_paths self) (plot_dna_radar self).
Proof. unfold plot_dna_radar. cbv zeta. repeat frame_step. Qed.

Lemma wo_plot_formation_usage :
  writes_only (chart_paths self) (plot_formation_usage self).
Proof. unfold plot_formation_usage. cbv zeta. repeat frame_step. Qed.

Lemma wo_plot_squad_fit :
  writes_only (chart_paths self) (plot_squad_fit py_float self).
Proof.
  unfold plot_squad_fit, sort_players, squad_fit_color, fit_score_key.
  cbv zeta. repeat frame_step.
Qed.

Lemma wo_plot_classification_pie :
  writes_only (chart_paths self) (plot_classification_pie self).
Proof. unfold plot_classification_pie. cbv zeta. repeat frame_step. Qed.

Lemma wo_plot_ideal_xi :
  writes_only (chart_paths self) (plot_ideal_xi self).
Proof.
  unfold plot_ideal_xi, plot_player. cbv zeta. repeat frame_step.
Qed.

Lemma wo_plot_recruitment :
  writes_only (chart_paths self) (plot_recruitment self).
Proof. unfold plot_recruitment. cbv zeta. repeat frame_step. Qed.

Lemma wo_plot_executive_summary :
  writes_only (chart_paths self) (plot_executive_summary self).
Proof. unfold plot_executive_summary. cbv zeta. repeat frame_step. Qed.

Lemma wo_plot_all : writes_only (chart_paths self) (plot_all py_float self).
Proof.
  unfold plot_all. destruct (plt self); [| apply wo_print].
  repeat match goal with
         | |- writes_only _ (bind _ _) => apply wo_bind; [| intros ?]
         end;
    first [ apply wo_print | apply wo_plot_dna_radar
          | apply wo_plot_formation_usage | apply wo_plot_squad_fit
          | apply wo_plot_classification_pie | apply wo_plot_ideal_xi
          | apply wo_plot_recruitment | apply wo_plot_executive_summary ].
Qed.
End ChartFiles.

Lemma path_join_inj (dir a b : string) :
  path_join dir a = path_join dir b -> a = b.
Proof.
  unfold path_join. induction dir as [| c dir IH]; simpl; intros H.
  - now injection H.
  - injection H as H. now apply IH.
Qed.

Lemma not_a_chart (self : AegisVisualizer) (name : string) :
  ~ In name chart_files ->
  ~ In (path_join (output_dir self) name) (chart_paths self).
Proof.
  intros Hn Hin. unfold chart_paths in Hin.
  apply in_map_iff in Hin. destruct Hin as (c & Hc & Hin).
  apply path_join_inj in Hc. subst c. now apply Hn.
Qed.

(** X5: however [plot_all] ends, by returning or by the exception of one
    of its routines, the only files of the world it has created or changed
    are among the seven chart files of the output directory; in particular
    the results document and the squad table are as they were. *)
Theorem plot_all_touches_only_charts :
  forall (py_float : string -> option Q) (self : AegisVisualizer)
         (w : World),
    (forall p : string,
        ~ In p (chart_paths self) ->
        lookup p (files (world_after (plot_all py_float self w)))
        = lookup p (files w))
    /\ lookup (path_join (output_dir self) "aegis_analysis.json")
              (files (world_after (plot_all py_float self w)))
       = lookup (path_join (output_dir self) "aegis_analysis.json") (files w)
    /\ lookup (path_join (output_dir self) "squad_fit_scores.csv")
              (files (world_after (plot_all py_float self w)))
       = lookup (path_join (output_dir self) "squad_fit_scores.csv") (files w).
Proof.
  intros py_float self w.
  pose proof (@wo_plot_all py_float self w) as H.
  split; [exact H |].
  split; apply H, not_a_chart; simpl; intuition discriminate.
Qed.

Lemma plot_all_touches_only_charts_witness :
  lookup "out/AEGIS_Dashboard.html"
         (files (world_after (plot_all decimal_float nameless_self
                                nameless_world)))
  = None.
Proof.
  rewrite (proj1 (plot_all_touches_only_charts decimal_float nameless_self
                    nameless_world)).
  - reflexivity.
  - simpl. intuition discriminate.
Defined.



(** ** Recruitment priorities *)

(** A loop whose body reads only and can raise one exception: it returns
    when every pass returns, and raises that exception otherwise. *)
Lemma mapM_reads {W A B} (f : A -> M W B) (g : A -> B) (ok : A -> Prop)
    (e : exn) (l : list A) (w : W) :
  (forall a, ok a -> f a w = Return (g a) w) ->
  (forall a, ~ ok a -> f a w = Raise e w) ->
  (forall a, ok a \/ ~ ok a) ->
  (Forall ok l /\ mapM f l w = Return (map g l) w)
  \/ (~ Forall ok l /\ mapM f l w = Raise e w).
Proof.
  intros Hok Hbad Hdec. induction l as [| a l IH]; simpl.
  - left. split; [constructor | reflexivity].
  - unfold bind. destruct (Hdec a) as [Ha | Ha].
    + rewrite (Hok a Ha). destruct IH as [[HF ->] | [HF ->]].
      * left. split; [now constructor | reflexivity].
      * right. split; [| reflexivity].
        intros H. apply HF. now inversion H.
    + rewrite (Hbad a Ha). right. split; [| reflexivity].
      intros H. apply Ha. now inversion H.
Qed.

Lemma item_reads {A} (field : option A) (d : A) (w : World) :
  (field <> None -> item field w = Return (get field d) w)
  /\ (~ field <> None -> @item World A field w = Raise KeyError w).
Proof.
  destruct field as [v |]; simpl; split; intros H; try reflexivity.
  - exfalso. apply H. discriminate.
  - now elim H.
Qed.

Lemma some_or_none {A} (field : option A) : field <> None \/ ~ field <> None.
Proof. destruct field; [left; discriminate | right; intros H; now apply H]. Qed.

Lemma combine_map2 {A B C} (f : A -> B) (g : A -> C) (l : list A) :
  combine (map f l) (map g l) = map (fun a => (f a, g a)) l.
Proof.
  induction l as [| a l IH]; simpl; [reflexivity | now rewrite IH].
Qed.

Lemma cost_text_reads (n : RecruitmentNeed) (w : World) :
  (rn_cost_low n <> None /\ rn_cost_high n <> None ->
   (low <- item (rn_cost_low n) ;;
    high <- item (rn_cost_high n) ;;
    ret (CostRange low high))%py w
   = Return (CostRange (get (rn_cost_low n) 0) (get (rn_cost_high n) 0)) w)
  /\ (~ (rn_cost_low n <> None /\ rn_cost_high n <> None) ->
      (low <- item (rn_cost_low n) ;;
       high <- item (rn_cost_high n) ;;
       ret (CostRange low high))%py w
      = Raise KeyError w).
Proof.
  unfold bind.
  destruct (rn_cost_low n) as [lo |]; destruct (rn_cost_high n) as [hi |];
    simpl; split; intros H; try reflexivity;
    try (exfalso; apply H; split; discriminate);
    try (exfalso; destruct H as [H1 H2]; (now apply H1) || (now apply H2)).
Qed.

Lemma plot_recruitment_run (self : AegisVisualizer) (r : AnalysisResult)
    (w : World) :
  results self = Some r ->
  plt self = true ->
  get (recruitment r) [] <> [] ->
  let needs := get (recruitment r) [] in
  (Forall need_complete needs
   /\ exists (w' : World) (chart : BarChart),
        plot_recruitment self w = Return tt w'
        /\ lookup (path_join (output_dir self)
                             "06_recruitment_priorities.png") (files w')
           = Some (Png (Bars chart))
        /\ bc_bars chart = map need_bar needs
        /\ bc_xlim chart
           = (0, match map (fun n => get (rn_gap n) 0) needs with
                 | g :: gs => max_of g gs * (15 # 10)
                 | [] => 30
                 end))
  \/ (~ Forall need_complete needs
      /\ plot_recruitment self w = Raise KeyError w).
Proof.
  intros Hr Hplt Hne needs. subst needs.
  unfold plot_recruitment, bind, self_results, self_plt.
  rewrite Hr, Hplt. cbv beta iota zeta delta [ret].
  remember (get (recruitment r) []) as needs eqn:Eneeds. clear Eneeds.
  destruct needs as [| n0 ns] eqn:En; [now elim Hne |].
  rewrite <- En. clear Hne.
  destruct (@mapM_reads _ _ _ (fun n => item (rn_position n))
              (fun n => get (rn_position n) EmptyString)
              (fun n => rn_position n <> None) KeyError needs w
              (fun n => proj1 (item_reads (rn_position n) EmptyString w))
              (fun n => proj2 (item_reads (rn_position n) EmptyString w))
              (fun n => some_or_none (rn_position n)))
    as [[F1 ->] | [F1 ->]].
  2:{ right. split; [| reflexivity]. intros H. apply F1.
      eapply Forall_impl; [| exact H]. now intros a (? & _). }
  destruct (@mapM_reads _ _ _ (fun n => item (rn_gap n))
              (fun n => get (rn_gap n) 0)
              (fun n => rn_gap n <> None) KeyError needs w
              (fun n => proj1 (item_reads (rn_gap n) 0 w))
              (fun n => proj2 (item_reads (rn_gap n) 0 w))
              (fun n => some_or_none (rn_gap n)))
    as [[F2 ->] | [F2 ->]].
  2:{ right. split; [| reflexivity]. intros H. apply F2.
      eapply Forall_impl; [| exact H]. now intros a (_ & ? & _). }
  destruct (@mapM_reads _ _ _ (fun n => item (rn_urgency n))
              (fun n => get (rn_urgency n) EmptyString)
              (fun n => rn_urgency n <> None) KeyError needs w
              (fun n => proj1 (item_reads (rn_urgency n) EmptyString w))
              (fun n => proj2 (item_reads (rn_urgency n) EmptyString w))
              (fun n => some_or_none (rn_urgency n)))
    as [[F3 ->] | [F3 ->]].
  2:{ right. split; [| reflexivity]. intros H. apply F3.
      eapply Forall_impl; [| exact H]. now intros a (_ & _ & ? & _). }
  destruct (@mapM_reads _ _ _
              (fun n => (low <- item (rn_cost_low n) ;;
                         high <- item (rn_cost_high n) ;;
                         ret (CostRange low high))%py)
              (fun n => CostRange (get (rn_cost_low n) 0)
                                  (get (rn_cost_high n) 0))
              (fun n => rn_cost_low n <> None /\ rn_cost_high n <> None)
              KeyError needs w
              (fun n => proj1 (cost_text_reads n w))
              (fun n => proj2 (cost_text_reads n w)))
    as [[F4 E4] | [F4 E4]].
  { intros a. destruct (rn_cost_low a); destruct (rn_cost_high a);
      try (left; split; discriminate);
      right; intros [H1 H2]; (now apply H1) || (now apply H2). }
  2:{ right. unfold bind, ret in E4. rewrite E4. split; [| reflexivity].
      intros H. apply F4.
      eapply Forall_impl; [| exact H]. now intros a (_ & _ & _ & ? & ?). }
  left. split.
  - rewrite Forall_forall in *. intros a Ha.
    destruct (F4 a Ha). repeat split; auto.
  - unfold bind, ret in E4. rewrite E4.
    destruct needs as [| n1 ns1] eqn:En1; [discriminate |].
    rewrite <- En1 in *.
    eexists. eexists. split; [reflexivity |].
    split; [simpl; now rewrite String.eqb_refl |].
    split.
    + simpl bc_bars. rewrite map_map.
      rewrite !combine_map2, map_map. apply map_ext.
      intros a. reflexivity.
    + reflexivity.
Qed.

(** X7: with results loaded, matplotlib there and a recruitment list that
    is not empty, [plot_recruitment] raises [KeyError], having saved and
    printed nothing, exactly when some entry lacks one of [position],
    [gap], [urgency], [cost_low], [cost_high]; otherwise it saves one bar
    per entry, in the order of the list, as wide as the gap, in the colour
    of the urgency and labelled with the cost range, and when no gap is
    negative every bar fits in the axis, which ends at one and a half times
    the largest gap. *)
Theorem plot_recruitment_keys :
  forall (self : AegisVisualizer) (r : AnalysisResult) (w : World),
    results self = Some r ->
    plt self = true ->
    get (recruitment r) [] <> [] ->
    let needs := get (recruitment r) [] in
    (Forall need_complete needs ->
     exists (w' : World) (chart : BarChart),
       plot_recruitment self w = Return tt w'
       /\ lookup (path_join (output_dir self)
                            "06_recruitment_priorities.png") (files w')
          = Some (Png (Bars chart))
       /\ bc_bars chart = map need_bar needs
       /\ (Forall (fun n => 0 <= get (rn_gap n) 0) needs ->
           Forall (fun b => 0 <= lb_width b <= snd (bc_xlim chart))
                  (bc_bars chart)))
    /\ (~ Forall need_complete needs ->
        plot_recruitment self w = Raise KeyError w).
Proof.
  intros self r w Hr Hplt Hne needs. subst needs.
  destruct (plot_recruitment_run self w Hr Hplt Hne)
    as [[HF (w' & chart & Hrun & Hfile & Hbars & Hlim)] | [HF Hrun]].
  - split; [| intros H; now elim H].
    intros _. exists w', chart.
    split; [exact Hrun |]. split; [exact Hfile |]. split; [exact Hbars |].
    intros Hpos. rewrite Hbars, Hlim. simpl snd.
    apply Forall_forall. intros b Hb.
    apply in_map_iff in Hb. destruct Hb as (n & <- & Hn).
    simpl lb_width.
    assert (H0 : 0 <= get (rn_gap n) 0)
      by (rewrite Forall_forall in Hpos; now apply Hpos).
    assert (Hg : In (get (rn_gap n) 0)
                    (map (fun n => get (rn_gap n) 0)
                         (get (recruitment r) [])))
      by (apply in_map_iff; now exists n).
    destruct (map (fun n => get (rn_gap n) 0) (get (recruitment r) []))
      as [| g gs];
      [easy |].
    destruct (max_of_bounds gs g) as [Hfirst Hall].
    assert (Hle : get (rn_gap n) 0 <= max_of g gs).
    { destruct Hg as [<- | Hg]; [exact Hfirst | now apply Hall]. }
    split; lra.
  - split; [intros H; now elim HF | intros _; exact Hrun].
Qed.

Lemma plot_recruitment_keys_witness :
  plot_recruitment
    {| output_dir := sample_dir;
       results := Some {| manager := None; primary_formation := None;
                          matches_analysed := None; dna_dimensions := None;
                          squad_summary := None; ideal_xi := None;
                          recruitment := Some claim_example;
                          other_keys := [] |};
       squad_fit_data := None; plt := true |}
    sample_world
  = Raise KeyError sample_world.
Proof.
  apply (plot_recruitment_keys
           {| output_dir := sample_dir;
              results := Some {| manager := None; primary_formation := None;
                                 matches_analysed := None;
                                 dna_dimensions := None;
                                 squad_summary := None; ideal_xi := None;
                                 recruitment := Some claim_example;
                                 other_keys := [] |};
              squad_fit_data := None; plt := true |}
           sample_world eq_refl eq_refl).
  - discriminate.
  - intros H. inversion H as [| n ns Hn _]. destruct Hn as [Hp _].
    now apply Hp.
Defined.

(** ** The executive summary *)

Lemma plot_executive_summary_steps (self : AegisVisualizer)
    (r : AnalysisResult) (w : World) :
  results self = Some r ->
  plot_executive_summary self w
  = (self_plt self ;;;
     top5 <- top5_panel (firstn 5 (get (ideal_xi r) [])) ;;
     needs <- needs_panel (firstn 4 (get (recruitment r) [])) ;;
     savefig self "07_executive_summary.png"
       (Summary (summary_figure r top5 needs)) ;;;
     print "  ✓ 07_executive_summary.png")%py w.
Proof.
  intros Hr. unfold plot_executive_summary, bind, self_results.
  rewrite Hr. destruct (self_plt self w) as [[] w0 |]; [| reflexivity].
  change (ret r w0) with (Return r w0). cbv beta iota zeta.
  change (COLORS_item "primary" w0) with (Return "#3b82f6" w0).
  cbv beta iota.
  change (mapM (fun l : string * string => COLORS_item (snd l))
               summary_labels w0)
    with (Return classification_colors w0).
  cbv beta iota.
  unfold top5_panel, needs_panel, summary_figure, summary_pie, bind.
  cbv zeta.
  destruct (firstn 5 (get (ideal_xi r) [])) as [| p ps];
    destruct (firstn 4 (get (recruitment r) [])) as [| n ns];
    reflexivity.
Qed.

Lemma mapM_world {A B} (f : A -> Py B) (l : list A) (w : World) :
  (forall a w0, world_after (f a w0) = w0) ->
  world_after (mapM f l w) = w.
Proof.
  intros Hf. induction l as [| a l IH]; simpl; [reflexivity |].
  unfold bind. specialize (Hf a w).
  destruct (f a w) as [b w1 | e w1]; simpl in Hf; subst w1;
    [| reflexivity].
  destruct (mapM f l w) as [bs w2 | e w2]; simpl in IH; subst w2;
    reflexivity.
Qed.

Lemma mapM_length {W A B} (f : A -> M W B) (l : list A) (w w' : W)
    (xs : list B) :
  mapM f l w = Return xs w' -> List.length xs = List.length l.
Proof.
  revert w w' xs. induction l as [| a l IH]; simpl; intros w w' xs H.
  - injection H as <- _. reflexivity.
  - unfold bind in H. destruct (f a w) as [b w1 |]; [| discriminate].
    destruct (mapM f l w1) as [bs w2 |] eqn:E; [| discriminate].
    injection H as <- _. simpl. f_equal. exact (IH w1 w2 bs E).
Qed.

Lemma mapM_item {A B} (field : A -> option B) (d : B) (l : list A)
    (w w' : World) (xs : list B) :
  mapM (fun a => item (field a)) l w = Return xs w' ->
  xs = map (fun a => get (field a) d) l /\ w' = w.
Proof.
  revert xs w'. induction l as [| a l IH]; simpl; intros xs w' H.
  - injection H as <- <-. now split.
  - unfold bind in H. destruct (field a) as [v |]; [| discriminate].
    simpl in H.
    destruct (mapM (fun a => item (field a)) l w) as [bs w2 |];
      [| discriminate].
    destruct (IH bs w2 eq_refl) as [-> ->].
    injection H as <- <-. now split.
Qed.

Lemma map_snd_combine {A B} (l : list A) (l' : list B) :
  List.length l = List.length l' -> map snd (combine l l') = l'.
Proof.
  revert l'. induction l as [| a l IH]; destruct l' as [| b l'];
    simpl; intros H; try discriminate; [reflexivity |].
  f_equal. apply IH. now injection H.
Qed.

Lemma map_fst_combine {A B} (l : list A) (l' : list B) :
  List.length l = List.length l' -> map fst (combine l l') = l.
Proof.
  revert l'. induction l as [| a l IH]; destruct l' as [| b l'];
    simpl; intros H; try discriminate; [reflexivity |].
  f_equal. apply IH. now injection H.
Qed.

Lemma top5_panel_returns (ideal : list PositionAssignment) (w w' : World)
    (xs : list (string * Q)) :
  top5_panel ideal w = Return xs w' ->
  w' = w /\ map snd xs = map (fun p => get (xi_fit_score p) 0) ideal.
Proof.
  unfold top5_panel. destruct ideal as [| p ps].
  - intros H. injection H as <- <-. now split.
  - set (ideal := p :: ps). unfold bind. intros H.
    assert (Hw : world_after
                   (mapM (fun p => (n <- item (xi_name p) ;;
                                    last_item (py_split n))%py) ideal w)
                 = w).
    { apply mapM_world. intros a w0. unfold bind.
      destruct (xi_name a); simpl; [apply reads_last_item | reflexivity]. }
    unfold bind in Hw.
    destruct (mapM _ ideal w) as [names w1 |] eqn:En; [| discriminate].
    simpl in Hw. subst w1.
    destruct (mapM (fun p => item (xi_fit_score p)) ideal w)
      as [scores w2 |] eqn:Es; [| discriminate].
    destruct (mapM_item _ 0 _ _ Es) as [-> ->].
    simpl in H. injection H as <- <-. split; [reflexivity |].
    apply map_snd_combine.
    rewrite (mapM_length _ _ _ En). now rewrite length_map.
Qed.

Lemma needs_panel_returns (top_needs : list RecruitmentNeed) (w w' : World)
    (xs : list (string * Q)) :
  needs_panel top_needs w = Return xs w' ->
  w' = w
  /\ xs = map (fun n => (get (rn_position n) EmptyString, get (rn_gap n) 0))
              top_needs.
Proof.
  unfold needs_panel. destruct top_needs as [| n ns].
  - intros H. injection H as <- <-. now split.
  - set (l := n :: ns). unfold bind. intros H.
    destruct (mapM (fun n => item (rn_position n)) l w)
      as [places w1 |] eqn:Ep; [| discriminate].
    destruct (mapM_item _ EmptyString _ _ Ep) as [-> ->].
    destruct (mapM (fun n => item (rn_gap n)) l w)
      as [gaps w2 |] eqn:Eg; [| discriminate].
    destruct (mapM_item _ 0 _ _ Eg) as [-> ->].
    injection H as <- <-. split; [reflexivity |].
    subst l. simpl. f_equal. apply combine_map2.
Qed.

(** X8: the executive summary looks at the first five entries of [ideal_xi]
    only: its outcome is the same as on the list cut after the fifth entry,
    so a later entry can neither appear nor make it fail.  When it returns,
    the bars of its fit panel are the scores of these first five entries in
    the order of the document (they are not sorted by score), and the bars
    of its recruitment panel are the positions and gaps of the first four
    recruitment entries. *)
Theorem executive_summary_panels :
  forall (self : AegisVisualizer) (r : AnalysisResult) (w : World),
    results self = Some r ->
    let players := get (ideal_xi r) [] in
    let needs := get (recruitment r) [] in
    plot_executive_summary self w
    = plot_executive_summary (with_ideal_xi self (firstn 5 players)) w
    /\ forall w' : World,
         plot_executive_summary self w = Return tt w' ->
         exists f : SummaryFigure,
           lookup (path_join (output_dir self) "07_executive_summary.png")
                  (files w') = Some (Png (Summary f))
           /\ map snd (sf_top5 f)
              = map (fun p => get (xi_fit_score p) 0) (firstn 5 players)
           /\ sf_needs f
              = map (fun n => (get (rn_position n) EmptyString,
                               get (rn_gap n) 0)) (firstn 4 needs).
Proof.
  intros self r w Hr players needs. split.
  - rewrite (plot_executive_summary_steps self w Hr).
    assert (Hr' : results (with_ideal_xi self (firstn 5 players))
                  = Some {| manager := manager r;
                            primary_formation := primary_formation r;
                            matches_analysed := matches_analysed r;
                            dna_dimensions := dna_dimensions r;
                            squad_summary := squad_summary r;
                            ideal_xi := Some (firstn 5 players);
                            recruitment := recruitment r;
                            other_keys := other_keys r |})
      by (simpl; now rewrite Hr).
    rewrite (plot_executive_summary_steps _ w Hr').
    unfold summary_figure.
    cbn [manager dna_dimensions squad_summary ideal_xi recruitment
         matches_analysed get].
    fold players. rewrite firstn_firstn. reflexivity.
  - intros w' H. rewrite (plot_executive_summary_steps self w Hr) in H.
    fold players in H. fold needs in H. unfold bind in H.
    destruct (self_plt self w) as [[] w0 |] eqn:Ep; [| discriminate].
    pose proof (reads_self_plt self w) as Hw0. rewrite Ep in Hw0.
    simpl in Hw0. subst w0.
    destruct (top5_panel (firstn 5 players) w) as [top5 w1 |] eqn:Et;
      [| discriminate].
    destruct (top5_panel_returns _ _ Et) as [-> Htop].
    destruct (needs_panel (firstn 4 needs) w) as [ns w2 |] eqn:En;
      [| discriminate].
    destruct (needs_panel_returns _ _ En) as [-> ->].
    unfold savefig, write_file, print in H. injection H as <-.
    eexists. split; [simpl; now rewrite String.eqb_refl |].
    split; [exact Htop | reflexivity].
Qed.

Lemma executive_summary_panels_witness :
  plot_executive_summary nameless_self nameless_world
  = plot_executive_summary
      (with_ideal_xi nameless_self (firstn 5 nameless_xi)) nameless_world.
Proof.
  apply (executive_summary_panels nameless_self (r := nameless_result)
           nameless_world eq_refl).
Defined.

Lemma summary_pie_relabel (summary : SquadSummary) :
  summary_pie summary = map relabel (ax_pie (pie_data summary)).
Proof.
  unfold summary_pie, pie_data, summary_sizes, nonzero.
  generalize (get (key_enablers summary) 0) (get (good_fit summary) 0)
             (get (system_dependent summary) 0)
             (get (marginalised summary) 0).
  intros a b c d. simpl.
  destruct (Qle_bool a 0); destruct (Qle_bool b 0);
    destruct (Qle_bool c 0); destruct (Qle_bool d 0); reflexivity.
Qed.

(** X9: when the executive summary is saved, its pie has the wedges of the
    classification pie chart, the same shares, colours and printed
    percentages in the same order, under the short labels [System Dep.]
    and [Marginalised] for the two long ones; with no positive count it has
    no wedge. *)
Theorem executive_summary_pie :
  forall (self : AegisVisualizer) (r : AnalysisResult) (w w' : World),
    results self = Some r ->
    plot_executive_summary self w = Return tt w' ->
    let summary := get (squad_summary r) empty_summary in
    exists f : SummaryFigure,
      lookup (path_join (output_dir self) "07_executive_summary.png")
             (files w') = Some (Png (Summary f))
      /\ sf_pie f = map relabel (ax_pie (pie_data summary))
      /\ (pie_data summary = [] -> sf_pie f = []).
Proof.
  intros self r w w' Hr H summary.
  rewrite (plot_executive_summary_steps self w Hr) in H. unfold bind in H.
  destruct (self_plt self w) as [[] w0 |]; [| discriminate].
  destruct (top5_panel _ w0) as [top5 w1 |]; [| discriminate].
  destruct (needs_panel _ w1) as [ns w2 |]; [| discriminate].
  unfold savefig, write_file, print in H. injection H as <-.
  eexists. split; [simpl; now rewrite String.eqb_refl |].
  simpl sf_pie. fold summary. rewrite summary_pie_relabel.
  split; [reflexivity |]. intros E. now rewrite E.
Qed.

Lemma executive_summary_pie_witness :
  exists f : SummaryFigure,
    map wedge_label (sf_pie f) = ["Key Enabler"; "Good Fit"; "Marginalised"].
Proof.
  destruct (plot_executive_summary sample_self sample_world)
    as [[] w' | e w'] eqn:E; [| discriminate].
  destruct (executive_summary_pie sample_self (r := sample_result)
              sample_world eq_refl E) as (f & _ & Hpie & _).
  exists f. rewrite Hpie. reflexivity.
Defined.

(** ** The ranking of the static chart and of the page *)

Lemma sort_desc_map {A B} (k1 : A -> Q) (k2 : B -> Q) (g : A -> B)
    (l : list A) :
  (forall a, k2 (g a) = k1 a) ->
  sort_desc k2 (map g l) = map g (sort_desc k1 l).
Proof.
  intros Hk.
  assert (Hins : forall x l0,
             insert_desc k2 (g x) (map g l0) = map g (insert_desc k1 x l0)).
  { intros x l0. induction l0 as [| y l0 IH]; simpl; [reflexivity |].
    rewrite !Hk. destruct (Qle_bool (k1 y) (k1 x)); simpl; [reflexivity |].
    now rewrite IH. }
  induction l as [| x l IH]; simpl; [reflexivity |].
  rewrite IH. apply Hins.
Qed.

(** X10: for a squad table of rows with a name, a classification and a
    numeric fit score, the names along the bars of the page's chart, built
    from the entries that [generate_dashboard] embeds for these rows, are
    the names along the first fifteen bars of the static chart that
    [plot_squad_fit] saves for the same table, in the same order. *)
Theorem ranking_targets_agree :
  forall (py_float : string -> option Q) (py_int : string -> option Z)
         (self : AegisVisualizer) (w : World) (rows : list Row)
         (doc : DashboardDocument),
    lookup (path_join (output_dir self) "squad_fit_scores.csv") (files w)
    = Some (Csv rows) ->
    rows <> [] ->
    Forall (row_complete py_float) rows ->
    plt self = true ->
    squadFit doc = map (entry_of py_float py_int) rows ->
    exists (w' : World) (chart : BarChart),
      plot_squad_fit py_float self w = Return tt w'
      /\ lookup (path_join (output_dir self) "03_squad_fit_scores.png")
                (files w') = Some (Png (Bars chart))
      /\ map fb_name (SquadFitChart doc)
         = firstn 15 (map lb_label (bc_bars chart)).
Proof.
  intros py_float py_int self w rows doc Hfile Hne Hall Hplt Hdoc.
  destruct (plot_squad_fit_complete self w Hfile Hne Hall Hplt)
    as (w' & chart & Hrun & Hpng & _ & Hbars).
  exists w', chart. split; [exact Hrun |]. split; [exact Hpng |].
  unfold SquadFitChart, sorted_top15. rewrite Hbars, Hdoc.
  rewrite (sort_desc_map (row_score py_float) sq_score
             (entry_of py_float py_int) rows (fun a => eq_refl)).
  rewrite !map_map, <- firstn_map, !map_map. f_equal.
  apply map_ext_in. intros p Hp. simpl.
  assert (Hc : row_complete py_float p).
  { rewrite Forall_forall in Hall. apply Hall.
    eapply Permutation_in; [apply sort_desc_perm | exact Hp]. }
  destruct Hc as (Hn & _). destruct (Name p); [reflexivity | easy].
Qed.

Lemma ranking_targets_agree_witness :
  exists chart : BarChart,
    firstn 15 (map lb_label (bc_bars chart))
    = ["Kulusevski"; "Son"; "Maddison"].
Proof.
  assert (Hall : Forall (row_complete decimal_float) sample_rows).
  { repeat (constructor;
            [repeat split; try discriminate;
             eexists; split; [reflexivity | discriminate] |]).
    constructor. }
  assert (Hne : sample_rows <> []) by discriminate.
  destruct (ranking_targets_agree (py_float := decimal_float) decimal_int
              sample_self sample_world
              (_generate_dashboard_html "Thomas Frank" "4-3-3" 38 []
                 empty_summary
                 (map (entry_of decimal_float decimal_int) sample_rows)
                 [] [])
              eq_refl Hne Hall eq_refl eq_refl)
    as (w' & chart & _ & _ & H).
  exists chart. rewrite <- H. reflexivity.
Defined.

(** ** The recruitment windows of the page *)

Lemma filter_split_perm {A} (p : A -> bool) (l : list A) :
  Permutation l (filter p l ++ filter (fun x => negb (p x)) l).
Proof.
  induction l as [| a l IH]; simpl; [constructor |].
  destruct (p a); simpl.
  - now constructor.
  - now apply Permutation_cons_app.
Qed.

Lemma total_of_filter {A} (field : A -> Q) (p : A -> bool) (l : list A) :
  total_of field l
  == total_of field (filter p l)
     + total_of field (filter (fun x => negb (p x)) l).
Proof.
  induction l as [| a l IH]; simpl; [ring |].
  destruct (p a); simpl; rewrite IH; ring.
Qed.

Lemma windows_disjoint (r : RecruitmentNeed) :
  in_window "January" r = true -> in_window "Summer" r = false.
Proof.
  unfold in_window. destruct (rn_timeline r) as [t |]; [| easy].
  intros H. apply String.eqb_eq in H. now subst t.
Qed.

Lemma filter_summer (l : list RecruitmentNeed) :
  filter (in_window "Summer")
         (filter (fun r => negb (in_window "January" r)) l)
  = filter (in_window "Summer") l.
Proof.
  induction l as [| r l IH]; simpl; [reflexivity |].
  destruct (in_window "January" r) eqn:EJ; simpl.
  - now rewrite (windows_disjoint r EJ).
  - destruct (in_window "Summer" r); now rewrite IH.
Qed.

Lemma filter_unscheduled (l : list RecruitmentNeed) :
  filter (fun r => negb (in_window "Summer" r))
         (filter (fun r => negb (in_window "January" r)) l)
  = filter (fun r => negb (in_window "January" r || in_window "Summer" r)) l.
Proof.
  induction l as [| r l IH]; simpl; [reflexivity |].
  destruct (in_window "January" r) eqn:EJ; simpl; [exact IH |].
  destruct (in_window "Summer" r); simpl; now rewrite IH.
Qed.

(** X11: on the recruitment tab of the page, no entry is listed in both
    windows; the January list, the Summer list and the entries of neither
    window together are the recruitment list, so that the three lengths add
    up to the number of priority positions the page announces; and each of
    the two investment totals is the sum of the costs over the three groups:
    it includes the entries that no window lists. *)
Theorem recruitment_windows :
  forall doc : DashboardDocument,
    let january := window "January" doc in
    let summer := window "Summer" doc in
    let rest := unscheduled doc in
    (forall r, In r january -> ~ In r summer)
    /\ Permutation (recruitment_js doc) (january ++ summer ++ rest)
    /\ (List.length january + List.length summer + List.length rest
        = List.length (recruitment_js doc))%nat
    /\ totalInvestLow doc
       == total_of cost_low_of january + total_of cost_low_of summer
          + total_of cost_low_of rest
    /\ totalInvestHigh doc
       == total_of cost_high_of january + total_of cost_high_of summer
          + total_of cost_high_of rest.
Proof.
  intros doc january summer rest.
  subst january summer rest. unfold window, unscheduled.
  set (l := recruitment_js doc).
  assert (HP : Permutation l
                 (filter (in_window "January") l
                  ++ filter (in_window "Summer") l
                  ++ filter (fun r => negb (in_window "January" r
                                            || in_window "Summer" r)) l)).
  { rewrite <- filter_summer, <- filter_unscheduled.
    etransitivity; [apply (filter_split_perm (in_window "January")) |].
    apply Permutation_app_head. apply filter_split_perm. }
  split; [| split; [exact HP | split; [| split]]].
  - intros r HJ HS. apply filter_In in HJ, HS.
    destruct HJ as [_ HJ], HS as [_ HS].
    rewrite (windows_disjoint r HJ) in HS. discriminate.
  - apply Permutation_length in HP. rewrite !length_app in HP. lia.
  - unfold totalInvestLow. fold l. rewrite reduce_total.
    fold cost_low_of.
    change (fun b => get (rn_cost_low b) 0) with cost_low_of.
    rewrite (total_of_filter cost_low_of (in_window "January") l).
    rewrite (total_of_filter cost_low_of (in_window "Summer")
               (filter (fun r => negb (in_window "January" r)) l)).
    rewrite filter_summer, filter_unscheduled. ring.
  - unfold totalInvestHigh. fold l. rewrite reduce_total.
    change (fun b => get (rn_cost_high b) 0) with cost_high_of.
    rewrite (total_of_filter cost_high_of (in_window "January") l).
    rewrite (total_of_filter cost_high_of (in_window "Summer")
               (filter (fun r => negb (in_window "January" r)) l)).
    rewrite filter_summer, filter_unscheduled. ring.
Qed.

Lemma recruitment_windows_witness :
  Permutation (recruitment_js sample_document)
    (window "January" sample_document ++ window "Summer" sample_document
     ++ unscheduled sample_document).
Proof. exact (proj1 (proj2 (recruitment_windows sample_document))). Defined.

(** ** The classification tiles of the page *)

Lemma length_filter_cons {A} (f : A -> bool) (a : A) (l : list A) :
  List.length (filter f (a :: l))
  = ((if f a then 1 else 0) + List.length (filter f l))%nat.
Proof. simpl. now destruct (f a). Qed.

Lemma one_tile (c : string) :
  ((if String.eqb c "Key Enabler" then 1 else 0)
   + ((if String.eqb c "Good Fit" then 1 else 0)
      + ((if String.eqb c "System Dependent" then 1 else 0)
         + ((if String.eqb c "Potentially Marginalised" then 1 else 0) + 0)))
   + (if negb (existsb (String.eqb c) (map fst classificationColors))
      then 1 else 0)
   = 1)%nat.
Proof.
  cbn [classificationColors map fst existsb].
  destruct (String.eqb_spec c "Key Enabler") as [-> | _]; [reflexivity |].
  destruct (String.eqb_spec c "Good Fit") as [-> | _]; [reflexivity |].
  destruct (String.eqb_spec c "System Dependent") as [-> | _];
    [reflexivity |].
  destruct (String.eqb_spec c "Potentially Marginalised") as [-> | _];
    reflexivity.
Qed.

Lemma filter_none {A} (f : A -> bool) (l : list A) :
  List.length (filter f l) = 0%nat <-> Forall (fun x => f x = false) l.
Proof.
  induction l as [| a l IH]; simpl.
  - split; [constructor | reflexivity].
  - destruct (f a) eqn:E; simpl.
    + split; [discriminate |]. intros H. inversion H. congruence.
    + rewrite IH. split; [now constructor | intros H; now inversion H].
Qed.

(** X12: the four classification tiles of the overview count the entries
    of the embedded squad table, not the figures of [squadSummary]: the four
    counts and the number of entries whose classification is none of the
    four labels add up to the size of the table; the counts alone add up to
    it exactly when every entry carries one of the four labels; and with an
    empty table every tile shows 0. *)
Theorem classification_tiles_partition :
  forall doc : DashboardDocument,
    let counts := map snd (classification_tiles doc) in
    (fold_right Nat.add 0 counts + List.length (unclassified doc)
     = List.length (squadFit doc))%nat
    /\ (fold_right Nat.add 0%nat counts = List.length (squadFit doc)
        <-> Forall (fun p => In (sq_classification p)
                                (map fst classificationColors))
                   (squadFit doc))
    /\ (squadFit doc = [] -> counts = [0; 0; 0; 0]%nat).
Proof.
  intros doc counts.
  assert (HS : (fold_right Nat.add 0 counts + List.length (unclassified doc)
                = List.length (squadFit doc))%nat).
  { subst counts.
    unfold classification_tiles, classification_count, unclassified.
    cbn [classificationColors map snd fold_right].
    induction (squadFit doc) as [| p l IH]; [reflexivity |].
    rewrite !length_filter_cons. cbn [List.length].
    pose proof (one_tile (sq_classification p)) as H1.
    cbn [classificationColors map fst] in *. lia. }
  split; [exact HS | split].
  - transitivity (List.length (unclassified doc) = 0%nat); [lia |].
    unfold unclassified. rewrite filter_none.
    split; intros H; eapply Forall_impl; try exact H; cbv beta; intros p Hp.
    + apply negb_false_iff, existsb_exists in Hp.
      destruct Hp as (x & Hx & E). apply String.eqb_eq in E. now subst x.
    + apply negb_false_iff, existsb_exists.
      exists (sq_classification p). split; [exact Hp | apply String.eqb_refl].
  - intros E. subst counts.
    unfold classification_tiles, classification_count. now rewrite E.
Qed.

Lemma classification_tiles_partition_witness :
  (fold_right Nat.add 0 (map snd (classification_tiles sample_document))
   + List.length (unclassified sample_document) = 3)%nat.
Proof. exact (proj1 (classification_tiles_partition sample_document)). Defined.

(** ** The radar of the page and the closed outline *)

Lemma indexed_length {A} (l : list A) :
  List.length (indexed l) = List.length l.
Proof. unfold indexed. now rewrite length_combine, length_seq, Nat.min_id. Qed.

Lemma on_rim (a : R) :
  ((150 + 100 * cos a - 150) * (150 + 100 * cos a - 150)
   + (150 + 100 * sin a - 150) * (150 + 100 * sin a - 150)
   = 100 * 100)%R.
Proof.
  pose proof (sin2_cos2 a) as H. unfold Rsqr in H.
  replace ((150 + 100 * cos a - 150) * (150 + 100 * cos a - 150)
           + (150 + 100 * sin a - 150) * (150 + 100 * sin a - 150))%R
    with (100 * 100 * (sin a * sin a + cos a * cos a))%R by ring.
  rewrite H. ring.
Qed.

(** X13: in the radar of the page, every dimension has a spoke from the
    centre (150, 150) to a point of the circle of radius 100, and its
    vertex lies on that spoke, at the share [value / 100] of it; its label
    is anchored on the same ray, at 5/4 of the spoke; and the outline visits
    the vertices in the order of the dimensions, moving to the first and
    drawing a line to each of the others. *)
Theorem radar_vertex_on_spoke :
  forall (doc : DashboardDocument) (i : nat) (label : string) (value : Q),
    nth_error (dnaDimensions doc) i = Some (label, value) ->
    exists (p : RadarPoint) (x2 y2 : R),
      nth_error (svg_points (DNARadar doc)) i = Some p
      /\ nth_error (svg_gridLines (DNARadar doc)) i
         = Some (150, 150, x2, y2)%R
      /\ ((x2 - 150) * (x2 - 150) + (y2 - 150) * (y2 - 150) = 100 * 100)%R
      /\ (pt_x p - 150 = Q2R value / 100 * (x2 - 150))%R
      /\ (pt_y p - 150 = Q2R value / 100 * (y2 - 150))%R
      /\ (pt_labelX p - 150 = 5 / 4 * (x2 - 150))%R
      /\ (pt_labelY p - 150 = 5 / 4 * (y2 - 150))%R
      /\ nth_error (svg_path (DNARadar doc)) i
         = Some (match i with
                 | O => MoveTo (pt_x p) (pt_y p)
                 | S _ => LineTo (pt_x p) (pt_y p)
                 end).
Proof.
  intros doc i label value Hi.
  set (a := radar_angle (List.length (dnaDimensions doc)) i).
  pose proof (indexed_nth _ i Hi) as Hidx.
  assert (Hp : nth_error (svg_points (DNARadar doc)) i
               = Some {| pt_x := 150 + radar_r 100 value * cos a;
                         pt_y := 150 + radar_r 100 value * sin a;
                         pt_labelX := 150 + (100 + 25) * cos a;
                         pt_labelY := 150 + (100 + 25) * sin a;
                         pt_label := label; pt_value := value;
                         pt_text := toFixed0 value |}%R).
  { unfold DNARadar. cbv zeta. cbn [svg_points].
    now rewrite (map_nth_error _ i (indexed (dnaDimensions doc)) Hidx). }
  eexists _, (150 + 100 * cos a)%R, (150 + 100 * sin a)%R.
  split; [exact Hp |]. split; [| split; [apply on_rim |]].
  - unfold DNARadar. cbv zeta. cbn [svg_gridLines].
    now rewrite (map_nth_error _ i (indexed (dnaDimensions doc)) Hidx).
  - cbn [pt_x pt_y pt_labelX pt_labelY]. unfold radar_r.
    repeat split; try field.
    pose proof (indexed_nth _ i Hp) as Hq.
    change (svg_path (DNARadar doc))
      with (map (fun p : nat * RadarPoint =>
                   match fst p with
                   | O => MoveTo (pt_x (snd p)) (pt_y (snd p))
                   | S _ => LineTo (pt_x (snd p)) (pt_y (snd p))
                   end)
                (indexed (svg_points (DNARadar doc))) ++ [ClosePath]).
    rewrite nth_error_app1.
    + rewrite (map_nth_error _ i _ Hq). cbn [fst snd pt_x pt_y].
      now destruct i.
    + rewrite length_map, indexed_length. apply nth_error_Some. congruence.
Qed.

Lemma radar_vertex_on_spoke_witness :
  exists (p : RadarPoint) (x2 y2 : R),
    nth_error (svg_points (DNARadar sample_document)) 1 = Some p
    /\ nth_error (svg_gridLines (DNARadar sample_document)) 1
       = Some (150, 150, x2, y2)%R
    /\ (pt_x p - 150 = Q2R 0 / 100 * (x2 - 150))%R.
Proof.
  destruct (@radar_vertex_on_spoke sample_document 1 "B" 0 eq_refl)
    as (p & x2 & y2 & H1 & H2 & _ & H3 & _).
  exists p, x2, y2. repeat split; assumption.
Defined.

(** X14: with at least one dimension, both radars draw a closed outline.
    [plot_dna_radar] hands [n + 1] angles and [n + 1] values to the polar
    axes, the last angle and value repeating the first (the angle 0, not a
    full turn); the outline of the page has [n + 1] commands, the last one
    closing the path, and moves the pen only once, at the start. *)
Theorem radar_outline_closed :
  forall (r : AnalysisResult) (doc : DashboardDocument),
    let n := List.length (get (dna_dimensions r) []) in
    let fig := radar_figure r in
    dnaDimensions doc = get (dna_dimensions r) [] ->
    (0 < n)%nat ->
    List.length (rf_angles fig) = S n
    /\ List.length (rf_values fig) = S n
    /\ nth_error (rf_angles fig) 0 = Some 0%R
    /\ nth_error (rf_angles fig) n = Some 0%R
    /\ nth_error (rf_values fig) n = nth_error (rf_values fig) 0
    /\ List.length (svg_path (DNARadar doc)) = S n
    /\ nth_error (svg_path (DNARadar doc)) n = Some ClosePath
    /\ (forall x y, ~ In (MoveTo x y) (tl (svg_path (DNARadar doc)))).
Proof.
  intros r doc n fig Hdoc Hn. subst fig.
  set (dims := get (dna_dimensions r) []) in *.
  assert (Ha : rf_angles (radar_figure r)
               = linspace_open 0 (2 * PI) n
                 ++ firstn 1 (linspace_open 0 (2 * PI) n)).
  { lazy beta iota zeta delta [radar_figure rf_angles]. fold dims.
    now rewrite length_map. }
  assert (Hv : rf_values (radar_figure r)
               = map snd dims ++ firstn 1 (map snd dims)).
  { reflexivity. }
  assert (Hl : List.length (linspace_open 0 (2 * PI) n) = n).
  { unfold linspace_open. now rewrite length_map, length_seq. }
  assert (H0 : nth_error (linspace_open 0 (2 * PI) n) 0 = Some 0%R).
  { rewrite linspace_open_nth by exact Hn. f_equal. simpl INR. ring. }
  rewrite Ha, Hv.
  split; [| split; [| split; [| split; [| split; [| split; [| split]]]]]].
  - rewrite length_app, Hl.
    destruct (linspace_open 0 (2 * PI) n) as [| a l]; simpl in *; lia.
  - rewrite length_app, length_map. subst n.
    destruct dims as [| d l]; simpl in *; lia.
  - rewrite nth_error_app1 by (rewrite Hl; exact Hn). exact H0.
  - rewrite nth_error_app2 by (rewrite Hl; lia).
    rewrite Hl, Nat.sub_diag.
    destruct (linspace_open 0 (2 * PI) n) as [| a l]; [discriminate |].
    exact H0.
  - rewrite nth_error_app2 by (rewrite length_map; subst n; lia).
    rewrite length_map. fold n. rewrite Nat.sub_diag.
    subst n. destruct dims as [| d l]; [simpl in Hn; lia |]. reflexivity.
  - unfold DNARadar. cbv zeta. cbn [svg_path].
    rewrite length_app, length_map, indexed_length, length_map,
      indexed_length, Hdoc. fold n. simpl. lia.
  - unfold DNARadar. cbv zeta. cbn [svg_path].
    rewrite nth_error_app2;
      rewrite length_map, indexed_length, length_map, indexed_length, Hdoc;
      fold n; [| lia].
    now rewrite Nat.sub_diag.
  - intros x y. unfold DNARadar. cbv zeta. cbn [svg_path].
    set (points := map _ (indexed (dnaDimensions doc))).
    unfold indexed.
    destruct points as [| p0 ps]; [simpl; tauto |].
    cbn [List.length seq combine map app tl].
    rewrite <- seq_shift, in_app_iff. intros [H | [H | []]]; [| discriminate].
    apply in_map_iff in H. destruct H as ([k q] & E & Hin).
    apply in_combine_l in Hin. apply in_map_iff in Hin.
    destruct Hin as (j & <- & _). discriminate.
Qed.

Lemma radar_outline_closed_witness :
  nth_error (rf_angles (radar_figure sample_result)) 3 = Some 0%R
  /\ nth_error (svg_path (DNARadar sample_document)) 3 = Some ClosePath.
Proof.
  assert (Hn : (0 < List.length (get (dna_dimensions sample_result) []))%nat)
    by (simpl; lia).
  destruct (@radar_outline_closed sample_result sample_document eq_refl Hn)
    as (_ & _ & _ & H1 & _ & _ & H2 & _).
  split; [exact H1 | exact H2].
Defined.

(** ** The failures of the squad fit chart *)






